(** * FastAPI backend bootstrap ([main.py]): a shallow embedding

    The module under verification is the application bootstrap of the
    repository: it builds a FastAPI application, installs the CORS
    middleware, mounts the [users] router under [/api/v1], registers the
    [lifespan] hook that creates the database tables, declares the two
    status endpoints [root] and [health_check], and hands the application
    to [uvicorn.run] on the port read from [PORT].

    Python values are embedded as follows: [int] is [Z], [str] is [string]
    (one [ascii] per code point, so the model covers code points below
    U+0100), [dict] with string keys is an association list in insertion
    order, [os.environ] is a [gmap string string], an exception is a
    constructor of [PyExn] carried by [result]. *)

From Stdlib Require Import ZArith List String Ascii Bool Lia.
From stdpp Require Import base option list gmap strings.

Local Open Scope string_scope.
Local Open Scope Z_scope.

(** ** Python results and exceptions *)

Inductive PyExn : Type :=
  | ValueError
  | ImportError
  | AssertionError
  | RuntimeError
  | OperationalError.

Inductive result (A : Type) : Type :=
  | Ok (a : A)
  | Raise (e : PyExn).
Arguments Ok {A} a.
Arguments Raise {A} e.

Definition bind {A B : Type} (r : result A) (k : A -> result B) : result B :=
  match r with
  | Ok a => k a
  | Raise e => Raise e
  end.

Notation "'let*' x ':=' r 'in' k" := (bind r (fun x => k))
  (at level 10, x name, r at level 100, k at level 200).

(** ** The builtin [int], as [main.py] calls it on [os.getenv("PORT", 8000)] *)

(** [os.getenv] returns the string bound in the environment, or the
    default object untouched: here the default is the integer [8000], not
    a string. *)
Inductive pyval : Type :=
  | PInt (z : Z)
  | PStr (s : string).

Definition os_getenv (environ : gmap string string) (key : string)
    (default : pyval) : pyval :=
  match environ !! key with
  | Some v => PStr v
  | None => default
  end.

Definition code (c : ascii) : Z := Z.of_nat (nat_of_ascii c).

(** White space for [int]: the ASCII class of [Py_ISSPACE] (tab to
    carriage return, and space), and the two code points below U+0100
    that the decimal transform turns into a space (U+0085, U+00A0). *)
Definition is_space (c : ascii) : bool :=
  ((9 <=? code c) && (code c <=? 13)) || (code c =? 32)
  || (code c =? 133) || (code c =? 160).

Definition digit_val (c : ascii) : option Z :=
  if (48 <=? code c) && (code c <=? 57) then Some (code c - 48) else None.

Definition is_underscore (c : ascii) : bool := code c =? 95.

Fixpoint skip_spaces (s : string) : string :=
  match s with
  | String c s' => if is_space c then skip_spaces s' else s
  | EmptyString => s
  end.

(** An optional sign; [true] stands for a minus. *)
Definition take_sign (s : string) : bool * string :=
  match s with
  | String c s' =>
      if code c =? 43 then (false, s')
      else if code c =? 45 then (true, s')
      else (false, s)
  | EmptyString => (false, s)
  end.

Definition starts_with_underscore (s : string) : bool :=
  match s with
  | String c _ => is_underscore c
  | EmptyString => false
  end.

(** The digit scan of [PyLong_FromString] in base ten: digits are
    accumulated most significant first, a single underscore may separate
    two digits, and the scan stops at the first other character. [None]
    is the underscore error (doubled or trailing); otherwise the value,
    the number of digits read and the unread rest are returned. *)
Fixpoint scan_digits (s : string) (prev_us : bool) (acc : Z) (ndigits : nat)
    : option (Z * nat * string) :=
  match s with
  | String c s' =>
      match digit_val c with
      | Some d => scan_digits s' false (acc * 10 + d) (S ndigits)
      | None =>
          if is_underscore c then
            if prev_us then None else scan_digits s' true acc ndigits
          else if prev_us then None else Some (acc, ndigits, s)
      end
  | EmptyString => if prev_us then None else Some (acc, ndigits, s)
  end.

(** The interpreter's limit on the digits of a decimal literal
    ([sys.get_int_max_str_digits()]; [0] disables it, as in interpreters
    that predate the limit). It is only consulted above 640 digits. *)
Definition exceeds_digit_limit (max_str_digits ndigits : nat) : bool :=
  (640 <? ndigits)%nat && (0 <? max_str_digits)%nat
  && (max_str_digits <? ndigits)%nat.

Definition int_of_str (max_str_digits : nat) (s : string) : result Z :=
  let '(neg, body) := take_sign (skip_spaces s) in
  if starts_with_underscore body then Raise ValueError
  else
    match scan_digits body false 0 0 with
    | None => Raise ValueError
    | Some (v, n, rest) =>
        if (n =? 0)%nat then Raise ValueError
        else if exceeds_digit_limit max_str_digits n then Raise ValueError
        else
          match skip_spaces rest with
          | EmptyString => Ok (if neg then - v else v)
          | String _ _ => Raise ValueError
          end
    end.

Definition py_int (max_str_digits : nat) (v : pyval) : result Z :=
  match v with
  | PInt z => Ok z
  | PStr s => int_of_str max_str_digits s
  end.

(** [str] of an integer: the decimal digits, with a minus for negatives. *)
Definition digit_char (d : Z) : ascii := ascii_of_nat (Z.to_nat (48 + d)).

Fixpoint render_digits (fuel : nat) (n : Z) (acc : string) : string :=
  match fuel with
  | O => acc
  | S fuel' =>
      let acc' := String (digit_char (n mod 10)) acc in
      if n <? 10 then acc' else render_digits fuel' (n / 10) acc'
  end.

Definition str_of_nonneg (n : Z) : string :=
  render_digits (S (Z.to_nat (Z.log2 n))) n EmptyString.

Definition py_str (z : Z) : string :=
  if z <? 0 then String "-" (str_of_nonneg (- z)) else str_of_nonneg z.

(** ** The entry point: [if __name__ == "__main__": uvicorn.run(...)] *)

Record UvicornArgs : Type := MkUvicornArgs {
  app_ref : string;
  host : string;
  port : Z;
  reload : bool
}.

(** The arguments [main.py] passes to [uvicorn.run], given [os.environ] as
    it stands once [load_dotenv()] has run. Evaluating the arguments may
    raise: nothing in the module catches the exception of [int]. *)
Definition main_uvicorn_args (max_str_digits : nat)
    (environ : gmap string string) : result UvicornArgs :=
  let* p := py_int max_str_digits (os_getenv environ "PORT" (PInt 8000)) in
  Ok {| app_ref := "main:app"; host := "0.0.0.0"; port := p; reload := true |}.

Definition listening_port (max_str_digits : nat)
    (environ : gmap string string) : result Z :=
  let* a := main_uvicorn_args max_str_digits environ in Ok (port a).

(** ** The persistence layer behind [engine]

    [database.py] is not part of the fragment: [Base.metadata] is taken as
    the list of table names it declares (in creation order) and [engine]
    as a handle on a database that may or may not answer. *)

Record Database : Type := MkDatabase {
  online : bool;
  tables : gset string
}.

(** What the application can read or change while it runs: the database
    behind [engine], and whatever other mutable state the imported
    modules keep. *)
Record World : Type := MkWorld {
  db : Database;
  heap : gmap string string
}.

Definition set_db (d : Database) (w : World) : World :=
  {| db := d; heap := heap w |}.

(** [CREATE TABLE t]: refused when the table is already there. *)
Definition create_table (t : string) (d : Database) : result Database :=
  if decide (t ∈ tables d) then Raise OperationalError
  else Ok {| online := online d; tables := {[ t ]} ∪ tables d |}.

(** Modelled from the spec: [Base.metadata.create_all(bind=engine)], whose
    metadata and engine come from [database.py], absent from the
    fragment. The spec calls it ensure-create: each known table is created
    if absent and left alone otherwise; it is the check before each
    [CREATE TABLE] that keeps the statement from being refused. Nothing
    can be checked or created on a database that does not answer. *)
Fixpoint ensure_tables (metadata : list string) (d : Database)
    : result Database :=
  match metadata with
  | [] => Ok d
  | t :: rest =>
      if decide (t ∈ tables d) then ensure_tables rest d
      else let* d' := create_table t d in ensure_tables rest d'
  end.

Definition create_all (metadata : list string) (bind_engine : Database)
    : result Database :=
  if online bind_engine then ensure_tables metadata bind_engine
  else Raise OperationalError.

(** ** HTTP messages *)

#[warnings="-register-all"]
Inductive json : Type :=
  | JString (s : string)
  | JObject (fields : list (string * json)).

Inductive Body : Type :=
  | JsonBody (j : json)
  | TextBody (s : string)
  | OpaqueBody (tag : string).

(** A request as the ASGI scope presents it: header names are lower case;
    the query string is kept apart from the path. *)
Record Request : Type := MkRequest {
  req_method : string;
  req_path : string;
  req_query : string;
  req_headers : list (string * string)
}.

(** A response: status, headers (names in lower case, as Starlette stores
    them; [content-length] is not tracked) and body. *)
Record Response : Type := MkResponse {
  status : Z;
  resp_headers : list (string * string);
  body : Body
}.

(** What calling an endpoint can do: return a response, raise
    [HTTPException], or raise anything else. *)
Inductive Outcome : Type :=
  | Returns (r : Response)
  | RaisesHTTP (code : Z) (detail : string) (headers : list (string * string))
  | RaisesOther (e : PyExn).

Definition Handler : Type := Request -> World -> World * Outcome.

(** *** Header tables *)

Definition lower_ascii (c : ascii) : ascii :=
  if (65 <=? code c) && (code c <=? 90)
  then ascii_of_nat (nat_of_ascii c + 32) else c.

Fixpoint lower (s : string) : string :=
  match s with
  | String c s' => String (lower_ascii c) (lower s')
  | EmptyString => EmptyString
  end.

Fixpoint get_header (name : string) (hs : list (string * string))
    : option string :=
  match hs with
  | [] => None
  | (k, v) :: rest => if String.eqb k name then Some v else get_header name rest
  end.

Definition has_header (name : string) (hs : list (string * string)) : bool :=
  match get_header name hs with Some _ => true | None => false end.

(** [MutableHeaders.__setitem__]: the first header of that name takes the
    value and later ones are dropped; a new name is appended. *)
Fixpoint replace_header (k value : string) (seen : bool)
    (l : list (string * string)) : list (string * string) :=
  match l with
  | [] => []
  | (k', v') :: rest =>
      if String.eqb k' k
      then if seen then replace_header k value true rest
           else (k, value) :: replace_header k value true rest
      else (k', v') :: replace_header k value seen rest
  end.

Definition set_header (name value : string) (hs : list (string * string))
    : list (string * string) :=
  let k := lower name in
  if has_header k hs then replace_header k value false hs
  else (hs ++ [(k, value)])%list.

(** [MutableHeaders.update] with a dict: one [__setitem__] per item. *)
Definition update_headers (items hs : list (string * string))
    : list (string * string) :=
  fold_left (fun acc kv => set_header (fst kv) (snd kv) acc) items hs.

Definition add_vary_header (vary : string) (hs : list (string * string))
    : list (string * string) :=
  match get_header "vary" hs with
  | Some existing => set_header "vary" (existing ++ ", " ++ vary) hs
  | None => set_header "vary" vary hs
  end.

Fixpoint join (sep : string) (l : list string) : string :=
  match l with
  | [] => ""
  | [x] => x
  | x :: rest => x ++ sep ++ join sep rest
  end.

(** ** Starlette's [CORSMiddleware], as [main.py] configures it *)

Record CorsArgs : Type := MkCorsArgs {
  allow_origins : list string;
  allow_credentials : bool;
  allow_methods : list string;
  allow_headers : list string
}.

(** The keyword arguments of [app.add_middleware(CORSMiddleware, ...)]. *)
Definition main_cors_args : CorsArgs :=
  {| allow_origins := ["*"];
     allow_credentials := true;
     allow_methods := ["*"];
     allow_headers := ["*"] |}.

(** [main.py] pins no release of Starlette, and releases differ in three
    places of the CORS middleware: the tuple [ALL_METHODS] that the
    wildcard of [allow_methods] stands for; whether, under wildcard
    origins, a request with an [Origin] and no cookie gets its own origin
    back in place of [*]; and whether the response to a request without
    [Origin] is marked [Vary: Origin]. The release in use is a parameter. *)
Record Release : Type := MkRelease {
  ALL_METHODS : list string;
  echoes_origin : bool;
  vary_without_origin : bool
}.

Definition mem (x : string) (l : list string) : bool :=
  existsb (String.eqb x) l.

Definition SAFELISTED_HEADERS : list string :=
  ["Accept"; "Accept-Language"; "Content-Language"; "Content-Type"].

(** [sorted(set(...))] on strings: duplicates removed, code point order. *)
Fixpoint insert_sorted (x : string) (l : list string) : list string :=
  match l with
  | [] => [x]
  | y :: rest =>
      if String.leb x y then x :: l else y :: insert_sorted x rest
  end.

Definition sorted_set (l : list string) : list string :=
  fold_right insert_sorted [] (nodup string_dec l).

(** The attributes [CORSMiddleware.__init__] computes. No origin regex and
    no exposed header is configured, and [max_age] keeps its default. *)
Record Cors : Type := MkCors {
  cors_allow_origins : list string;
  cors_allow_methods : list string;
  cors_allow_headers : list string;
  allow_all_origins : bool;
  allow_all_headers : bool;
  preflight_explicit_allow_origin : bool;
  simple_headers : list (string * string);
  preflight_headers : list (string * string)
}.

Definition cors_init (v : Release) (a : CorsArgs) : Cors :=
  let methods :=
    if mem "*" (allow_methods a) then ALL_METHODS v else allow_methods a in
  let all_origins := mem "*" (allow_origins a) in
  let all_headers := mem "*" (allow_headers a) in
  let explicit := negb all_origins || allow_credentials a in
  let headers := sorted_set (SAFELISTED_HEADERS ++ allow_headers a)%list in
  let simple :=
    ((if all_origins then [("Access-Control-Allow-Origin", "*")] else [])
     ++ (if allow_credentials a
         then [("Access-Control-Allow-Credentials", "true")] else []))%list in
  let preflight :=
    ((if explicit then [("Vary", "Origin")]
      else [("Access-Control-Allow-Origin", "*")])
     ++ [("Access-Control-Allow-Methods", join ", " methods);
         ("Access-Control-Max-Age", "600")]
     ++ (if all_headers then []
         else [("Access-Control-Allow-Headers", join ", " headers)])
     ++ (if allow_credentials a
         then [("Access-Control-Allow-Credentials", "true")] else []))%list in
  {| cors_allow_origins := allow_origins a;
     cors_allow_methods := methods;
     cors_allow_headers := map lower headers;
     allow_all_origins := all_origins;
     allow_all_headers := all_headers;
     preflight_explicit_allow_origin := explicit;
     simple_headers := simple;
     preflight_headers := preflight |}.

Definition is_allowed_origin (c : Cors) (origin : string) : bool :=
  if allow_all_origins c then true else mem origin (cors_allow_origins c).

(** A dict built from header items: a repeated key keeps its first
    position and takes the last value. Keys keep their spelling here. *)
Fixpoint dict_set (k v : string) (d : list (string * string))
    : list (string * string) :=
  match d with
  | [] => [(k, v)]
  | (k', v') :: rest =>
      if String.eqb k' k then (k, v) :: rest else (k', v') :: dict_set k v rest
  end.

(** [Response.init_headers]: names go to lower case, and the content type
    of the response class, if it has one, is appended. *)
Definition init_headers (media_type : option string)
    (d : list (string * string)) : list (string * string) :=
  (map (fun kv => (lower (fst kv), snd kv)) d
   ++ match media_type with
      | Some t => [("content-type", t)]
      | None => []
      end)%list.

Definition PlainTextResponse (text : string) (code : Z)
    (d : list (string * string)) : Response :=
  {| status := code;
     resp_headers := init_headers (Some "text/plain; charset=utf-8") d;
     body := TextBody text |}.

Definition JSONResponse (content : json) (code : Z)
    (d : list (string * string)) : Response :=
  {| status := code;
     resp_headers := init_headers (Some "application/json") d;
     body := JsonBody content |}.

(** Splitting the requested header names at commas, and [str.strip]. *)
Fixpoint split_commas (s : string) (cur : string) : list string :=
  match s with
  | EmptyString => [cur]
  | String c s' =>
      if code c =? 44 then cur :: split_commas s' ""
      else split_commas s' (cur ++ String c "")
  end.

Definition py_isspace (c : ascii) : bool :=
  is_space c || ((28 <=? code c) && (code c <=? 31)).

Fixpoint lstrip (s : string) : string :=
  match s with
  | String c s' => if py_isspace c then lstrip s' else s
  | EmptyString => s
  end.

Definition strip (s : string) : string :=
  String.rev (lstrip (String.rev (lstrip s))).

Definition preflight_response (c : Cors) (request_headers : list (string * string))
    : Response :=
  let requested_origin := default "" (get_header "origin" request_headers) in
  let requested_method :=
    default "" (get_header "access-control-request-method" request_headers) in
  let requested_headers :=
    get_header "access-control-request-headers" request_headers in
  let headers := preflight_headers c in
  let origin_ok := is_allowed_origin c requested_origin in
  let headers :=
    if origin_ok && preflight_explicit_allow_origin c
    then dict_set "Access-Control-Allow-Origin" requested_origin headers
    else headers in
  let method_ok := mem requested_method (cors_allow_methods c) in
  let headers :=
    match requested_headers with
    | Some h =>
        if allow_all_headers c
        then dict_set "Access-Control-Allow-Headers" h headers else headers
    | None => headers
    end in
  let headers_ok :=
    match requested_headers with
    | Some h =>
        allow_all_headers c
        || forallb (fun x => mem (strip x) (cors_allow_headers c))
             (map lower (split_commas h ""))
    | None => true
    end in
  let failures :=
    ((if origin_ok then [] else ["origin"])
     ++ (if method_ok then [] else ["method"])
     ++ (if headers_ok then [] else ["headers"]))%list in
  match failures with
  | [] => PlainTextResponse "OK" 200 headers
  | _ => PlainTextResponse ("Disallowed CORS " ++ join ", " failures) 400 headers
  end.

Definition allow_explicit_origin (origin : string) (hs : list (string * string))
    : list (string * string) :=
  add_vary_header "Origin" (set_header "Access-Control-Allow-Origin" origin hs).

(** [CORSMiddleware.send], applied to the start of the inner response. *)
Definition cors_send (v : Release) (c : Cors)
    (request_headers : list (string * string)) (r : Response) : Response :=
  let hs := update_headers (simple_headers c) (resp_headers r) in
  let origin := default "" (get_header "origin" request_headers) in
  let has_cookie := has_header "cookie" request_headers in
  let hs :=
    if allow_all_origins c && (has_cookie || echoes_origin v)
    then allow_explicit_origin origin hs
    else if negb (allow_all_origins c) && is_allowed_origin c origin
    then allow_explicit_origin origin hs
    else hs in
  {| status := status r; resp_headers := hs; body := body r |}.

(** An ASGI application: it answers a request, or an exception escapes
    from it. *)
Definition Asgi : Type := Request -> World -> World * result Response.

(** [CORSMiddleware.__call__]: a request without [Origin] goes to the
    inner application (whose response is left untouched, or marked
    [Vary: Origin], by the release); a preflight request is answered
    here; any other request goes through with [send] wrapped. An
    exception of the inner application passes through unchanged. *)
Definition is_preflight (rq : Request) : bool :=
  String.eqb (req_method rq) "OPTIONS"
  && has_header "access-control-request-method" (req_headers rq).

Definition mark_vary (r : Response) : Response :=
  {| status := status r;
     resp_headers := add_vary_header "Origin" (resp_headers r);
     body := body r |}.

Definition CORSMiddleware (v : Release) (c : Cors) (inner : Asgi) : Asgi :=
  fun rq w =>
    match get_header "origin" (req_headers rq) with
    | None =>
        if vary_without_origin v then
          match inner rq w with
          | (w', Ok r) => (w', Ok (mark_vary r))
          | (w', Raise e) => (w', Raise e)
          end
        else inner rq w
    | Some _ =>
        if is_preflight rq
        then (w, Ok (preflight_response c (req_headers rq)))
        else
          match inner rq w with
          | (w', Ok r) => (w', Ok (cors_send v c (req_headers rq) r))
          | (w', Raise e) => (w', Raise e)
          end
    end.

(** ** Routing: Starlette's [compile_path] and [Router.app] *)

(** A compiled path: literal characters and parameters [{name}] or
    [{name:convertor}]. *)
Inductive Seg : Type :=
  | Lit (c : ascii)
  | Param (name convertor : string).

Definition is_ident_start (c : ascii) : bool :=
  ((65 <=? code c) && (code c <=? 90)) || ((97 <=? code c) && (code c <=? 122))
  || (code c =? 95).

Definition is_ident_char (c : ascii) : bool :=
  is_ident_start c || ((48 <=? code c) && (code c <=? 57)).

Fixpoint take_ident_chars (s : string) : string * string :=
  match s with
  | String c s' =>
      if is_ident_char c
      then let '(n, r) := take_ident_chars s' in (String c n, r)
      else (EmptyString, s)
  | EmptyString => (EmptyString, s)
  end.

Definition take_ident (s : string) : option (string * string) :=
  match s with
  | String c s' =>
      if is_ident_start c
      then let '(n, r) := take_ident_chars s' in Some (String c n, r)
      else None
  | EmptyString => None
  end.

(** What [PARAM_REGEX] matches after an opening brace: a name, an
    optional [:convertor] and the closing brace. *)
Definition match_param (s : string) : option (string * string * string) :=
  match take_ident s with
  | Some (name, String c r) =>
      if code c =? 125 then Some (name, "str", r)
      else if code c =? 58 then
        match take_ident r with
        | Some (conv, String c' r') =>
            if code c' =? 125 then Some (name, conv, r') else None
        | _ => None
        end
      else None
  | _ => None
  end.

Fixpoint compile_segs (fuel : nat) (s : string) : list Seg :=
  match fuel with
  | O => []
  | S fuel' =>
      match s with
      | EmptyString => []
      | String c s' =>
          if code c =? 123 then
            match match_param s' with
            | Some (name, conv, r) => Param name conv :: compile_segs fuel' r
            | None => Lit c :: compile_segs fuel' s'
            end
          else Lit c :: compile_segs fuel' s'
      end
  end.

Definition is_param (g : Seg) : bool :=
  match g with
  | Param _ _ => true
  | Lit _ => false
  end.

(** A pattern that does not start with a slash is a host pattern: the
    literal text after its last parameter is cut at the first colon. *)
Fixpoint cut_host (segs : list Seg) : list Seg :=
  match segs with
  | [] => []
  | Param name conv :: rest => Param name conv :: cut_host rest
  | Lit c :: rest =>
      if existsb is_param rest then Lit c :: cut_host rest
      else if code c =? 58 then []
      else Lit c :: cut_host rest
  end.

Definition compile_path (path : string) : list Seg :=
  let segs := compile_segs (String.length path) path in
  if String.prefix "/" path then segs else cut_host segs.

(** [$] of a Python regex: the end of the string, or just before a final
    line feed. *)
Definition at_end (s : string) : bool :=
  match s with
  | EmptyString => true
  | String c EmptyString => code c =? 10
  | _ => false
  end.

(** All the ways to cut a string in two. *)
Fixpoint splits (s : string) : list (string * string) :=
  match s with
  | EmptyString => [(EmptyString, EmptyString)]
  | String c s' =>
      (EmptyString, s) :: map (fun ab => (String c (fst ab), snd ab)) (splits s')
  end.

(** [path_regex.match]: a parameter takes any piece its convertor's regex
    accepts; [accepts conv piece] stands for that regex. *)
Fixpoint match_segs (accepts : string -> string -> bool) (segs : list Seg)
    (s : string) : bool :=
  match segs with
  | [] => at_end s
  | Lit c :: segs' =>
      match s with
      | String c' s' => Ascii.eqb c c' && match_segs accepts segs' s'
      | EmptyString => false
      end
  | Param _ conv :: segs' =>
      existsb (fun ab => accepts conv (fst ab) && match_segs accepts segs' (snd ab))
        (splits s)
  end.

(** The function a route calls. *)
Inductive Endpoint : Type :=
  | EpFramework (name : string)
  | EpRoot
  | EpHealthCheck
  | EpUsers (h : Handler).

Record Route : Type := MkRoute {
  path : string;
  methods : list string;
  endpoint : Endpoint
}.

(** A route of [users.router], as the [routers] package (absent from the
    fragment) declares it. *)
Record UserRoute : Type := MkUserRoute {
  u_path : string;
  u_methods : list string;
  u_handler : Handler
}.

(** What the frameworks contribute and the fragment does not fix: the
    release of Starlette, the regexes of the path convertors, the
    documentation endpoints that [FastAPI()] registers, and how a redirect
    target is rendered. *)
Record Framework : Type := MkFramework {
  release : Release;
  accepts : string -> string -> bool;
  docs_endpoint : string -> Handler;
  url_of : Request -> string
}.

Inductive Match : Type := NoMatch | PartialMatch | FullMatch.

Definition route_matches (fw : Framework) (r : Route) (rq : Request) : Match :=
  if match_segs (accepts fw) (compile_path (path r)) (req_path rq) then
    match methods r with
    | [] => FullMatch
    | _ => if mem (req_method rq) (methods r) then FullMatch else PartialMatch
    end
  else NoMatch.

(** The loop of [Router.app]: the first full match wins; failing that,
    the first partial match. *)
Fixpoint find_route (fw : Framework) (routes : list Route)
    (partial : option Route) (rq : Request) : option Route :=
  match routes with
  | [] => partial
  | r :: rest =>
      match route_matches fw r rq with
      | FullMatch => Some r
      | PartialMatch =>
          find_route fw rest
            (match partial with Some _ => partial | None => Some r end) rq
      | NoMatch => find_route fw rest partial rq
      end
  end.

(** ** The two status endpoints of [main.py]

    Both are coroutines without parameters: they see the world and
    nothing of the request. *)
Definition root (w : World) : World * result json :=
  (w, Ok (JObject [("message", JString "FastAPI Backend is running!")])).

Definition health_check (w : World) : World * result json :=
  (w, Ok (JObject [("status", JString "OK");
                   ("message", JString "API is healthy")])).

(** The request handler FastAPI builds around a path operation without
    parameters: the returned value becomes a JSON response with the
    default status 200. *)
Definition api_handler (f : World -> World * result json) : Handler :=
  fun _ w =>
    match f w with
    | (w', Ok v) => (w', Returns (JSONResponse v 200 []))
    | (w', Raise e) => (w', RaisesOther e)
    end.

Definition call_endpoint (fw : Framework) (e : Endpoint) : Handler :=
  match e with
  | EpFramework name => docs_endpoint fw name
  | EpRoot => api_handler root
  | EpHealthCheck => api_handler health_check
  | EpUsers h => h
  end.

(** [Route.handle]: a method the route does not list is a 405. *)
Definition route_handle (fw : Framework) (r : Route) : Handler :=
  fun rq w =>
    match methods r with
    | [] => call_endpoint fw (endpoint r) rq w
    | _ =>
        if mem (req_method rq) (methods r)
        then call_endpoint fw (endpoint r) rq w
        else (w, RaisesHTTP 405 "Method Not Allowed"
                   [("Allow", join ", " (methods r))])
    end.

Fixpoint rstrip_slash_rev (r : string) : string :=
  match r with
  | String c r' => if code c =? 47 then rstrip_slash_rev r' else r
  | EmptyString => r
  end.

Definition ends_with_slash (s : string) : bool :=
  match String.rev s with
  | String c _ => code c =? 47
  | EmptyString => false
  end.

Definition redirect_path (p : string) : string :=
  if ends_with_slash p then String.rev (rstrip_slash_rev (String.rev p))
  else p ++ "/".

Definition RedirectResponse (url : string) : Response :=
  {| status := 307;
     resp_headers := init_headers None [("location", url)];
     body := TextBody "" |}.

Definition with_path (rq : Request) (p : string) : Request :=
  {| req_method := req_method rq; req_path := p;
     req_query := req_query rq; req_headers := req_headers rq |}.

(** [Router.app] on an HTTP request. *)
Definition router_app (fw : Framework) (routes : list Route) : Handler :=
  fun rq w =>
    match find_route fw routes None rq with
    | Some r => route_handle fw r rq w
    | None =>
        let rq' := with_path rq (redirect_path (req_path rq)) in
        if negb (String.eqb (req_path rq) "/")
           && existsb (fun r => match route_matches fw r rq' with
                                | NoMatch => false
                                | _ => true
                                end) routes
        then (w, Returns (RedirectResponse (url_of fw rq')))
        else (w, RaisesHTTP 404 "Not Found" [])
    end.

(** ** The middleware stack *)

Definition body_allowed (code : Z) : bool :=
  negb ((code <? 200) || (code =? 204) || (code =? 205) || (code =? 304)).

(** FastAPI's handler for [HTTPException]. *)
Definition http_exception_handler (code : Z) (detail : string)
    (headers : list (string * string)) : Response :=
  if body_allowed code
  then JSONResponse (JObject [("detail", JString detail)]) code headers
  else {| status := code; resp_headers := init_headers None headers;
          body := TextBody "" |}.

Definition ExceptionMiddleware (inner : Handler) : Asgi :=
  fun rq w =>
    match inner rq w with
    | (w', Returns r) => (w', Ok r)
    | (w', RaisesHTTP c d hs) => (w', Ok (http_exception_handler c d hs))
    | (w', RaisesOther e) => (w', Raise e)
    end.

(** [ServerErrorMiddleware]: an exception that reaches it is answered
    with a plain 500 (and raised again for the server's log). *)
Definition ServerErrorMiddleware (inner : Asgi) : Request -> World -> World * Response :=
  fun rq w =>
    match inner rq w with
    | (w', Ok r) => (w', r)
    | (w', Raise _) => (w', PlainTextResponse "Internal Server Error" 500 [])
    end.

(** ** The lifespan hook

    The body of [lifespan] is a generator: the statements that occur in it
    are the table creation and the suspension point. *)
Inductive Stmt : Type :=
  | CreateAll
  | Yield.

(** [async def lifespan(app)]: create the tables, then yield; nothing
    follows the yield. *)
Definition lifespan : list Stmt := [CreateAll; Yield].

Inductive GenStep : Type :=
  | Yielded
  | StopIteration
  | GenRaised (e : PyExn).

(** Resuming a generator: it runs to its next [yield], to the end of its
    body, or to an exception; the statements left to run come back with
    the world. *)
Fixpoint gen_next (metadata : list string) (g : list Stmt) (w : World)
    : list Stmt * World * GenStep :=
  match g with
  | [] => ([], w, StopIteration)
  | Yield :: rest => (rest, w, Yielded)
  | CreateAll :: rest =>
      match create_all metadata (db w) with
      | Ok d => gen_next metadata rest (set_db d w)
      | Raise e => ([], w, GenRaised e)
      end
  end.

(** [@asynccontextmanager]: entering runs the generator to its yield,
    leaving resumes it and expects it to finish. *)
Definition aenter (metadata : list string) (g : list Stmt) (w : World)
    : list Stmt * World * result unit :=
  match gen_next metadata g w with
  | (g', w', Yielded) => (g', w', Ok tt)
  | (g', w', StopIteration) => (g', w', Raise RuntimeError)
  | (g', w', GenRaised e) => (g', w', Raise e)
  end.

Definition aexit (metadata : list string) (g : list Stmt) (w : World)
    : list Stmt * World * result unit :=
  match gen_next metadata g w with
  | (g', w', StopIteration) => (g', w', Ok tt)
  | (g', w', Yielded) => (g', w', Raise RuntimeError)
  | (g', w', GenRaised e) => (g', w', Raise e)
  end.

(** ** Building the application: the module body of [main.py] *)

Inductive Middleware : Type :=
  | MwCORS (a : CorsArgs).

Record FastAPI : Type := MkFastAPI {
  title : string;
  description : string;
  version : string;
  lifespan_context : list Stmt;
  user_middleware : list Middleware;
  routes : list Route
}.

(** The routes [FastAPI()] registers by itself with the default URLs;
    a plain Starlette route that lists GET also answers HEAD. *)
Definition docs_routes : list Route :=
  [ {| path := "/openapi.json"; methods := ["GET"; "HEAD"];
       endpoint := EpFramework "openapi" |};
    {| path := "/docs"; methods := ["GET"; "HEAD"];
       endpoint := EpFramework "swagger_ui_html" |};
    {| path := "/docs/oauth2-redirect"; methods := ["GET"; "HEAD"];
       endpoint := EpFramework "swagger_ui_redirect" |};
    {| path := "/redoc"; methods := ["GET"; "HEAD"];
       endpoint := EpFramework "redoc_html" |} ].

Definition new_FastAPI (title description version : string)
    (lifespan : list Stmt) : FastAPI :=
  {| title := title; description := description; version := version;
     lifespan_context := lifespan; user_middleware := [];
     routes := docs_routes |}.

Definition add_middleware (app : FastAPI) (m : Middleware) : FastAPI :=
  {| title := title app; description := description app;
     version := version app; lifespan_context := lifespan_context app;
     user_middleware := m :: user_middleware app;
     routes := routes app |}.

Definition add_routes (app : FastAPI) (rs : list Route) : FastAPI :=
  {| title := title app; description := description app;
     version := version app; lifespan_context := lifespan_context app;
     user_middleware := user_middleware app;
     routes := (routes app ++ rs)%list |}.

Definition mounted (prefix : string) (r : UserRoute) : Route :=
  {| path := prefix ++ u_path r; methods := u_methods r;
     endpoint := EpUsers (u_handler r) |}.

(** [app.include_router(router, prefix=...)]: the prefix is checked, then
    every route of the router is added again under [prefix + route.path].
    The router is taken to carry path operations only and to register no
    lifecycle handler of its own. *)
Definition include_router (app : FastAPI) (router : list UserRoute)
    (prefix : string) : result FastAPI :=
  if String.eqb prefix "" then
    if existsb (fun r => String.eqb (u_path r) "") router
    then Raise AssertionError
    else Ok (add_routes app (map (mounted prefix) router))
  else if negb (String.prefix "/" prefix) then Raise AssertionError
  else if ends_with_slash prefix then Raise AssertionError
  else Ok (add_routes app (map (mounted prefix) router)).

(** [@app.get(path)] on a function. *)
Definition app_get (app : FastAPI) (p : string) (e : Endpoint) : FastAPI :=
  add_routes app [ {| path := p; methods := ["GET"]; endpoint := e |} ].

(** The module body, top to bottom: the two imports from the repository
    ([routers.users], then [database]) either succeed or raise; then the
    application is built, the middleware added, the router mounted and the
    two status routes declared. The result of importing [database] is the
    metadata's table list. *)
Definition main_module (import_users : result (list UserRoute))
    (import_database : result (list string)) : result (FastAPI * list string) :=
  let* users_router := import_users in
  let* metadata := import_database in
  let app := new_FastAPI "FastAPI Backend"
               "A modern Python API built with FastAPI" "1.0.0" lifespan in
  let app := add_middleware app (MwCORS main_cors_args) in
  let* app := include_router app users_router "/api/v1" in
  let app := app_get app "/" EpRoot in
  let app := app_get app "/health" EpHealthCheck in
  Ok (app, metadata).

Definition apply_middleware (fw : Framework) (m : Middleware)
    (inner : Asgi) : Asgi :=
  match m with
  | MwCORS a =>
      CORSMiddleware (release fw) (cors_init (release fw) a) inner
  end.

(** [build_middleware_stack]: the server error middleware outermost, the
    user middleware in order, the exception middleware around the router. *)
Definition asgi_app (fw : Framework) (app : FastAPI)
    : Request -> World -> World * Response :=
  ServerErrorMiddleware
    (fold_right (apply_middleware fw)
       (ExceptionMiddleware (router_app fw (routes app)))
       (user_middleware app)).

(** ** Running the application: [uvicorn.run("main:app", ...)]

    A worker imports the application, runs the lifespan start-up to its
    yield, and only then starts to accept connections; a start-up that
    raises is logged and ends the worker. Run with [reload=True], as
    [main.py] does, the worker lives under a supervisor that stays up and
    starts a fresh worker when a source file changes; without it, a failed
    start-up ends the process with status 3. *)

Inductive Phase : Type := Built | Starting | Serving | Failed | Stopped.

Inductive Event : Type :=
  | WorkerStarted
  | HookStarted
  | HookCompleted
  | HookFailed (e : PyExn)
  | Accepted (rq : Request)
  | Responded (r : Response)
  | ShutdownCompleted.

Inductive ProcStatus : Type :=
  | Running
  | Exited (code : Z).

Definition STARTUP_FAILURE : Z := 3.

Record Server : Type := MkServer {
  phase : Phase;
  gen : list Stmt;
  world : World;
  backlog : list Request;
  trace : list Event;
  exit_status : ProcStatus
}.

Definition spawn (app : FastAPI) (w : World) (q : list Request)
    (tr : list Event) : Server :=
  {| phase := Built; gen := lifespan_context app; world := w;
     backlog := q; trace := (tr ++ [WorkerStarted])%list;
     exit_status := Running |}.

Definition after_failure (args : UvicornArgs) : ProcStatus :=
  if reload args then Running else Exited STARTUP_FAILURE.

(** One step of a worker's life. Clients may connect at any time; their
    requests wait in the backlog until the worker takes them. *)
Inductive wstep (fw : Framework) (metadata : list string) (app : FastAPI)
    (args : UvicornArgs) : Server -> Server -> Prop :=
  | step_connect s rq :
      exit_status s = Running ->
      wstep fw metadata app args s
        {| phase := phase s; gen := gen s; world := world s;
           backlog := (backlog s ++ [rq])%list; trace := trace s;
           exit_status := exit_status s |}
  | step_startup_begin s :
      phase s = Built ->
      wstep fw metadata app args s
        {| phase := Starting; gen := gen s; world := world s;
           backlog := backlog s; trace := (trace s ++ [HookStarted])%list;
           exit_status := exit_status s |}
  | step_startup_complete s g' w' :
      phase s = Starting ->
      aenter metadata (gen s) (world s) = (g', w', Ok tt) ->
      wstep fw metadata app args s
        {| phase := Serving; gen := g'; world := w';
           backlog := backlog s; trace := (trace s ++ [HookCompleted])%list;
           exit_status := exit_status s |}
  | step_startup_failed s g' w' e :
      phase s = Starting ->
      aenter metadata (gen s) (world s) = (g', w', Raise e) ->
      wstep fw metadata app args s
        {| phase := Failed; gen := g'; world := w';
           backlog := backlog s; trace := (trace s ++ [HookFailed e])%list;
           exit_status := after_failure args |}
  | step_serve s rq rest w' r :
      phase s = Serving ->
      backlog s = rq :: rest ->
      asgi_app fw app rq (world s) = (w', r) ->
      wstep fw metadata app args s
        {| phase := Serving; gen := gen s; world := w';
           backlog := rest;
           trace := (trace s ++ [Accepted rq; Responded r])%list;
           exit_status := exit_status s |}
  | step_shutdown s g' w' res :
      phase s = Serving ->
      aexit metadata (gen s) (world s) = (g', w', res) ->
      wstep fw metadata app args s
        {| phase := Stopped; gen := g'; world := w';
           backlog := backlog s;
           trace := (trace s ++ [ShutdownCompleted])%list;
           exit_status := Exited 0 |}.

(** A step of the whole process: a step of the current worker, or, under
    the reloader, a restart: the serving worker is shut down (or the
    failed one is gone already) and a fresh worker imports the
    application. *)
Inductive step (fw : Framework) (metadata : list string) (app : FastAPI)
    (args : UvicornArgs) : Server -> Server -> Prop :=
  | step_worker s s' :
      wstep fw metadata app args s s' ->
      step fw metadata app args s s'
  | step_restart_serving s g' w' res :
      reload args = true ->
      phase s = Serving ->
      aexit metadata (gen s) (world s) = (g', w', res) ->
      step fw metadata app args s
        (spawn app w' (backlog s) (trace s ++ [ShutdownCompleted])%list)
  | step_restart_failed s :
      reload args = true ->
      phase s = Failed ->
      step fw metadata app args s
        (spawn app (world s) (backlog s) (trace s)).

(** The process as [uvicorn.run] starts it. *)
Definition boot (app : FastAPI) (w : World) : Server := spawn app w [] [].

(** Reading a trace: [true] when every accepted request comes after a
    completed hook of the worker that accepts it. [ready] tells whether
    the current worker's hook has completed. *)
Fixpoint hook_before_accept (ready : bool) (tr : list Event) : bool :=
  match tr with
  | [] => true
  | WorkerStarted :: t => hook_before_accept false t
  | HookCompleted :: t => hook_before_accept true t
  | Accepted _ :: t => ready && hook_before_accept ready t
  | _ :: t => hook_before_accept ready t
  end.

Fixpoint hook_ready (ready : bool) (tr : list Event) : bool :=
  match tr with
  | [] => ready
  | WorkerStarted :: t => hook_ready false t
  | HookCompleted :: t => hook_ready true t
  | _ :: t => hook_ready ready t
  end.

Definition is_accept (e : Event) : bool :=
  match e with Accepted _ => true | _ => false end.

Definition is_worker_start (e : Event) : bool :=
  match e with WorkerStarted => true | _ => false end.

(** ** The process: the module body, then the [__main__] block *)

Definition python_main (max_str_digits : nat) (environ : gmap string string)
    (import_users : result (list UserRoute))
    (import_database : result (list string))
    : result (FastAPI * list string * UvicornArgs) :=
  let* built := main_module import_users import_database in
  let* args := main_uvicorn_args max_str_digits environ in
  Ok (fst built, snd built, args).

(** ** Vocabulary of the statements *)

(** The characters a decimal literal of [int] may hold. *)
Definition numeric_char (c : ascii) : bool :=
  match digit_val c with
  | Some _ => true
  | None =>
      is_space c || is_underscore c || (code c =? 43) || (code c =? 45)
  end.

Fixpoint all_chars (p : ascii -> bool) (s : string) : bool :=
  match s with
  | String c s' => p c && all_chars p s'
  | EmptyString => true
  end.

(** The literal segments of a string without parameters. *)
Fixpoint lits (s : string) : list Seg :=
  match s with
  | String c s' => Lit c :: lits s'
  | EmptyString => []
  end.

(** Two worlds for the examples: a database that holds the [users] table,
    and an empty one. *)
Definition sample_world : World :=
  {| db := {| online := true; tables := {[ "users" ]} |}; heap := ∅ |}.

Definition fresh_world : World :=
  {| db := {| online := true; tables := ∅ |}; heap := ∅ |}.

(** Two releases for the examples: one with seven methods that keeps [*]
    and leaves a response without [Origin] alone, and one that also lists
    QUERY, echoes the origin and marks every response. *)
Definition release_seven : Release :=
  {| ALL_METHODS := ["DELETE"; "GET"; "HEAD"; "OPTIONS"; "PATCH"; "POST";
                     "PUT"];
     echoes_origin := false;
     vary_without_origin := false |}.

Definition release_query : Release :=
  {| ALL_METHODS := ["DELETE"; "GET"; "HEAD"; "OPTIONS"; "PATCH"; "POST";
                     "PUT"; "QUERY"];
     echoes_origin := true;
     vary_without_origin := true |}.

(** A framework instance for the examples: the [str] and [path]
    convertors of Starlette, documentation endpoints that answer with an
    opaque page, and URLs rendered as the path. *)
Definition sample_framework : Framework :=
  {| release := release_seven;
     accepts := fun conv piece =>
       if String.eqb conv "path" then true
       else if String.eqb conv "str"
       then negb (String.eqb piece "")
            && all_chars (fun c => negb (code c =? 47)) piece
       else false;
     docs_endpoint := fun name _ w =>
       (w, Returns {| status := 200;
                      resp_headers := init_headers (Some "text/html") [];
                      body := OpaqueBody name |});
     url_of := req_path |}.

(** The same framework on the other release. *)
Definition sample_framework_query : Framework :=
  {| release := release_query;
     accepts := accepts sample_framework;
     docs_endpoint := docs_endpoint sample_framework;
     url_of := url_of sample_framework |}.

(** A users router for the examples: one operation that writes to the
    heap and answers 201, one that raises [HTTPException(404)], and one
    whose handler fails with an unhandled exception. *)
Definition sample_users : list UserRoute :=
  [ {| u_path := "/users/"; u_methods := ["POST"];
       u_handler := fun _ w =>
         ({| db := db w; heap := <[ "last" := "created" ]> (heap w) |},
          Returns (JSONResponse (JObject [("id", JString "1")]) 201 [])) |};
    {| u_path := "/users/{user_id}"; u_methods := ["GET"];
       u_handler := fun _ w => (w, RaisesHTTP 404 "User not found" []) |};
    {| u_path := "/users/{user_id}/crash"; u_methods := ["GET"];
       u_handler := fun _ w => (w, RaisesOther RuntimeError) |} ].

Definition sample_app : FastAPI :=
  match main_module (Ok sample_users) (Ok ["users"]) with
  | Ok (app, _) => app
  | Raise _ => new_FastAPI "" "" "" []
  end.

Definition get (p : string) (hs : list (string * string)) : Request :=
  {| req_method := "GET"; req_path := p; req_query := ""; req_headers := hs |}.

(** What holds of every state of the process: requests were accepted
    after the hook only; a worker that has not started serving holds the
    lifespan generator untouched; a serving worker holds it suspended at
    its yield, with nothing left to run. *)
Definition lifecycle_inv (s : Server) : Prop :=
  hook_before_accept false (trace s) = true /\
  match phase s with
  | Built | Starting => gen s = lifespan
  | Serving => gen s = [] /\ hook_ready false (trace s) = true
  | Failed | Stopped => True
  end.

(** A world in which the hook raises stays as it is: no worker gets to
    serve, none accepts a request, and the process status is the one
    [uvicorn.run] gives to a failed start-up. *)
Definition failing_inv (args : UvicornArgs) (w : World) (e : PyExn)
    (s : Server) : Prop :=
  world s = w /\
  List.filter is_accept (trace s) = [] /\
  match phase s with
  | Built | Starting => gen s = lifespan /\ exit_status s = Running
  | Failed =>
      (exists t0, trace s = (t0 ++ [HookFailed e])%list) /\
      exit_status s = after_failure args
  | Serving | Stopped => False
  end.

(** The arguments of [uvicorn.run] when [PORT] is unset, a world whose
    database does not answer, and two states of a run for the examples. *)
Definition sample_args : UvicornArgs :=
  {| app_ref := "main:app"; host := "0.0.0.0"; port := 8000; reload := true |}.

Definition offline_world : World :=
  {| db := {| online := false; tables := ∅ |}; heap := ∅ |}.

Definition sample_served : Server :=
  {| phase := Serving; gen := []; world := sample_world; backlog := [];
     trace := [ WorkerStarted; HookStarted; HookCompleted;
                Accepted (get "/" []);
                Responded (snd (asgi_app sample_framework sample_app
                                  (get "/" []) sample_world)) ];
     exit_status := Running |}.

Definition sample_stopped : Server :=
  {| phase := Stopped; gen := []; world := sample_world; backlog := [];
     trace := (trace sample_served ++ [ShutdownCompleted])%list;
     exit_status := Exited 0 |}.

Definition sample_failed : Server :=
  {| phase := Failed; gen := []; world := offline_world; backlog := [];
     trace := [ WorkerStarted; HookStarted; HookFailed OperationalError ];
     exit_status := Running |}.

(** ** Vocabulary of the further properties *)

Definition is_digit (c : ascii) : bool :=
  match digit_val c with
  | Some _ => true
  | None => false
  end.

Definition no_digit (s : string) : bool :=
  all_chars (fun c => negb (is_digit c)) s.

Definition no_brace (s : string) : bool :=
  all_chars (fun c => negb (code c =? 123)) s.

(** The one-character string that holds a line feed. *)
Definition LF : string := String (ascii_of_nat 10) EmptyString.

(** The header names the CORS middleware writes. *)
Definition cors_written (k : string) : bool :=
  mem k ["access-control-allow-origin"; "access-control-allow-credentials";
         "vary"].

(** The headers of a response that the CORS middleware does not write, in
    their order and with their repetitions. *)
Definition other_headers (hs : list (string * string))
    : list (string * string) :=
  List.filter (fun kv => negb (cors_written (fst kv))) hs.

Example int_of_str_samples :
  map (int_of_str 4300)
    [ "8000"; " 8000 "; "+80"; "-5"; "1_000"; "_1"; "1_"; "1__0"; "";
      " "; "+ 1"; "0x10"; "00080"; "abc"; "1 2"; "0_0"; "1.0" ]
  = [ Ok 8000; Ok 8000; Ok 80; Ok (-5); Ok 1000; Raise ValueError;
      Raise ValueError; Raise ValueError; Raise ValueError;
      Raise ValueError; Raise ValueError; Raise ValueError; Ok 80;
      Raise ValueError; Raise ValueError; Ok 0; Raise ValueError ].
Proof. reflexivity. Qed.

Example py_str_samples :
  map py_str [0; 7; 10; 8000; 65535; -5; -120]
  = ["0"; "7"; "10"; "8000"; "65535"; "-5"; "-120"].
Proof. reflexivity. Qed.

(** * Properties *)

(** ** The listening port *)

Section IntParsing.

Lemma code_range c : 0 <= code c < 256.
Proof.
  unfold code. pose proof (nat_ascii_bounded c). lia.
Qed.

Lemma digit_val_digit_char d :
  0 <= d < 10 -> digit_val (digit_char d) = Some d.
Proof.
  intros Hd. unfold digit_val, digit_char, code.
  rewrite nat_ascii_embedding by lia.
  rewrite Z2Nat.id by lia.
  replace ((48 <=? 48 + d) && (48 + d <=? 57)) with true
    by (symmetry; apply andb_true_intro; split; apply Z.leb_le; lia).
  f_equal. lia.
Qed.

Lemma digit_not_space c d : digit_val c = Some d -> is_space c = false.
Proof.
  unfold digit_val, is_space.
  destruct ((48 <=? code c) && (code c <=? 57)) eqn:E; [|discriminate].
  intros _. apply andb_prop in E as [H1 H2].
  apply Z.leb_le in H1, H2.
  repeat (apply orb_false_intro);
    try (apply Z.eqb_neq; lia).
  apply andb_false_intro2. apply Z.leb_gt. lia.
Qed.

Lemma digit_not_sign c d :
  digit_val c = Some d -> (code c =? 43) = false /\ (code c =? 45) = false.
Proof.
  unfold digit_val.
  destruct ((48 <=? code c) && (code c <=? 57)) eqn:E; [|discriminate].
  intros _. apply andb_prop in E as [H1 H2]. apply Z.leb_le in H1, H2.
  split; apply Z.eqb_neq; lia.
Qed.

Lemma digit_not_underscore c d :
  digit_val c = Some d -> is_underscore c = false.
Proof.
  unfold digit_val, is_underscore.
  destruct ((48 <=? code c) && (code c <=? 57)) eqn:E; [|discriminate].
  intros _. apply andb_prop in E as [H1 H2]. apply Z.leb_le in H1, H2.
  apply Z.eqb_neq; lia.
Qed.

(** Scanning the rendering of [n] reads exactly the digits of [n]. *)
Lemma scan_render fuel : forall n rest,
  0 <= n < 2 ^ Z.of_nat (S fuel) ->
  exists (d : nat) c tl,
    (1 <= d <= S fuel)%nat /\
    render_digits (S fuel) n rest = String c tl /\
    digit_val c <> None /\
    forall a k,
      scan_digits (render_digits (S fuel) n rest) false a k
      = scan_digits rest false (a * 10 ^ Z.of_nat d + n) (k + d).
Proof.
  induction fuel as [|fuel IH]; intros n rest Hn;
    assert (Hm : 0 <= n mod 10 < 10) by (apply Z.mod_pos_bound; lia);
    cbn [render_digits]; destruct (n <? 10) eqn:Hlt.
  1, 3: apply Z.ltb_lt in Hlt;
    exists 1%nat, (digit_char (n mod 10)), rest;
    repeat split; try lia;
    [ rewrite digit_val_digit_char by lia; discriminate
    | intros a k; cbn [scan_digits];
      rewrite digit_val_digit_char by lia;
      rewrite Z.mod_small by lia; f_equal; lia ].
  - apply Z.ltb_ge in Hlt. change (2 ^ Z.of_nat 1) with 2 in Hn. lia.
  - apply Z.ltb_ge in Hlt.
    assert (Hq : 0 <= n / 10 < 2 ^ Z.of_nat (S fuel)).
    { split; [apply Z.div_pos; lia|].
      apply Z.div_lt_upper_bound; [lia|].
      rewrite (Nat2Z.inj_succ (S fuel)), Z.pow_succ_r in Hn by lia. lia. }
    destruct (IH (n / 10) (String (digit_char (n mod 10)) rest) Hq)
      as (d & c & tl & Hd & Hr & Hc & Hs).
    exists (S d), c, tl.
    repeat split; try lia; try assumption.
    intros a k. rewrite Hs. cbn [scan_digits].
    rewrite digit_val_digit_char by lia.
    f_equal; [|lia].
    rewrite Nat2Z.inj_succ, Z.pow_succ_r by lia.
    pose proof (Z.div_mod n 10 ltac:(lia)). lia.
Qed.

Lemma str_of_nonneg_parses m n :
  0 <= n < 2 ^ 639 ->
  exists c tl,
    str_of_nonneg n = String c tl /\ digit_val c <> None /\
    exists d, (1 <= d <= 640)%nat /\
      scan_digits (str_of_nonneg n) false 0 0 = Some (n, d, EmptyString) /\
      exceeds_digit_limit m d = false.
Proof.
  intros Hn. unfold str_of_nonneg.
  set (fuel := Z.to_nat (Z.log2 n)).
  assert (Hl : 0 <= Z.log2 n) by apply Z.log2_nonneg.
  assert (Hfuel : 0 <= n < 2 ^ Z.of_nat (S fuel)).
  { split; [lia|]. unfold fuel. rewrite Nat2Z.inj_succ, Z2Nat.id by lia.
    destruct (Z.eq_dec n 0) as [->|Hne]; [reflexivity|].
    apply Z.log2_spec. lia. }
  assert (Hle : (S fuel <= 640)%nat).
  { unfold fuel.
    destruct (Z.eq_dec n 0) as [->|Hne]; [simpl; lia|].
    assert (Z.log2 n < 639) by (apply Z.log2_lt_pow2; lia). lia. }
  destruct (scan_render fuel n EmptyString Hfuel)
    as (d & c & tl & Hd & Hr & Hc & Hs).
  exists c, tl. split; [assumption|]. split; [assumption|].
  exists d. split; [lia|]. split.
  - rewrite Hs. cbn [scan_digits].
    replace (0 * 10 ^ Z.of_nat d + n) with n by lia. reflexivity.
  - unfold exceeds_digit_limit.
    replace (640 <? d)%nat with false; [reflexivity|].
    symmetry. apply Nat.ltb_ge. lia.
Qed.

(** [int(str(z)) == z] below the digit limit. *)
Lemma int_of_str_py_str m z :
  Z.abs z < 2 ^ 639 -> int_of_str m (py_str z) = Ok z.
Proof.
  intros Hz. unfold py_str.
  destruct (z <? 0) eqn:Hneg.
  - apply Z.ltb_lt in Hneg.
    destruct (str_of_nonneg_parses m (- z) ltac:(lia))
      as (c & tl & Hr & Hc & d & Hd & Hs & Hlim).
    unfold int_of_str. cbn [skip_spaces].
    replace (is_space "-") with false by reflexivity.
    cbn [take_sign]. replace (code "-" =? 43) with false by reflexivity.
    replace (code "-" =? 45) with true by reflexivity.
    rewrite Hs. rewrite Hr. cbn [starts_with_underscore].
    destruct (digit_val c) as [dv|] eqn:Hdv; [|congruence].
    rewrite (digit_not_underscore _ _ Hdv).
    destruct d as [|d]; [lia|]. cbn [Nat.eqb].
    rewrite Hlim. cbn [skip_spaces]. f_equal. lia.
  - apply Z.ltb_ge in Hneg.
    destruct (str_of_nonneg_parses m z ltac:(lia))
      as (c & tl & Hr & Hc & d & Hd & Hs & Hlim).
    unfold int_of_str. rewrite Hr in *.
    destruct (digit_val c) as [dv|] eqn:Hdv; [|congruence].
    cbn [skip_spaces]. rewrite (digit_not_space _ _ Hdv).
    cbn [take_sign].
    destruct (digit_not_sign _ _ Hdv) as [-> ->].
    cbn [starts_with_underscore].
    rewrite (digit_not_underscore _ _ Hdv).
    rewrite Hs.
    destruct d as [|d]; [lia|]. cbn [Nat.eqb].
    rewrite Hlim. cbn [skip_spaces]. reflexivity.
Qed.

Lemma space_numeric c : is_space c = true -> numeric_char c = true.
Proof.
  intros H. unfold numeric_char. destruct (digit_val c); [reflexivity|].
  rewrite H. reflexivity.
Qed.

Lemma skip_spaces_numeric s :
  all_chars numeric_char (skip_spaces s) = true ->
  all_chars numeric_char s = true.
Proof.
  induction s as [|c s IH]; cbn [skip_spaces all_chars]; [trivial|].
  destruct (is_space c) eqn:E; [|trivial].
  intros H. rewrite (space_numeric _ E), IH; auto.
Qed.

Lemma skip_spaces_empty_numeric s :
  skip_spaces s = EmptyString -> all_chars numeric_char s = true.
Proof.
  induction s as [|c s IH]; cbn [skip_spaces all_chars]; [trivial|].
  destruct (is_space c) eqn:E; [|discriminate].
  intros H. rewrite (space_numeric _ E), IH; auto.
Qed.

Lemma take_sign_numeric s :
  all_chars numeric_char (snd (take_sign s)) = true ->
  all_chars numeric_char s = true.
Proof.
  destruct s as [|c s]; cbn [take_sign]; [trivial|].
  destruct (code c =? 43) eqn:E1; [|destruct (code c =? 45) eqn:E2];
    cbn [snd all_chars]; trivial; intros ->;
    unfold numeric_char; destruct (digit_val c); trivial;
    rewrite ?E1, ?E2, ?orb_true_r; reflexivity.
Qed.

Lemma scan_digits_numeric s : forall p a k v n rest,
  scan_digits s p a k = Some (v, n, rest) ->
  all_chars numeric_char rest = true ->
  all_chars numeric_char s = true.
Proof.
  induction s as [|c s IH]; intros p a k v n rest; cbn [scan_digits].
  - destruct p; [discriminate|]. intros [= _ _ <-]. trivial.
  - cbn [all_chars]. destruct (digit_val c) as [d|] eqn:Hd.
    + intros H Hr.
      assert (Hc : numeric_char c = true)
        by (unfold numeric_char; rewrite Hd; reflexivity).
      rewrite Hc. cbn [andb]. eauto.
    + destruct (is_underscore c) eqn:Hu.
      * destruct p; [discriminate|]. intros H Hr.
        assert (Hc : numeric_char c = true)
          by (unfold numeric_char; rewrite Hd, Hu, orb_true_r; reflexivity).
        rewrite Hc. cbn [andb]. eauto.
      * destruct p; [discriminate|]. intros [= _ _ <-] Hr. exact Hr.
Qed.

(** Whatever [int] accepts is made of digits, signs, underscores and
    white space only. *)
Lemma int_of_str_Ok_numeric m s z :
  int_of_str m s = Ok z -> all_chars numeric_char s = true.
Proof.
  unfold int_of_str. intros H. apply skip_spaces_numeric.
  apply take_sign_numeric.
  destruct (take_sign (skip_spaces s)) as [neg body]. cbn [snd].
  destruct (starts_with_underscore body); [discriminate|].
  destruct (scan_digits body false 0 0) as [[[v n] rest]|] eqn:Hs;
    [|discriminate].
  destruct (n =? 0)%nat; [discriminate|].
  destruct (exceeds_digit_limit m n); [discriminate|].
  destruct (skip_spaces rest) eqn:Hr; [|discriminate].
  eapply scan_digits_numeric; [exact Hs|].
  apply skip_spaces_empty_numeric. exact Hr.
Qed.

Lemma int_of_str_raises_ValueError m s e :
  int_of_str m s = Raise e -> e = ValueError.
Proof.
  unfold int_of_str.
  destruct (take_sign (skip_spaces s)) as [neg body].
  destruct (starts_with_underscore body); [congruence|].
  destruct (scan_digits body false 0 0) as [[[v n] rest]|];
    [|congruence].
  destruct (n =? 0)%nat; [congruence|].
  destruct (exceeds_digit_limit m n); [congruence|].
  destruct (skip_spaces rest); congruence.
Qed.

Lemma int_of_str_not_numeric m s :
  all_chars numeric_char s = false -> int_of_str m s = Raise ValueError.
Proof.
  intros H. destruct (int_of_str m s) as [z|e] eqn:E.
  - apply int_of_str_Ok_numeric in E. congruence.
  - f_equal. eapply int_of_str_raises_ValueError; eauto.
Qed.

End IntParsing.

(** C4, as the code has it: with [PORT] unset the port handed to
    [uvicorn.run] is 8000; with [PORT] set to the decimal writing of an
    integer (below the interpreter's digit limit) it is that integer; with
    [PORT] set to a string that holds a character other than a digit, a
    sign, an underscore or white space, evaluating the port raises
    [ValueError]: there is no fallback to 8000. *)
Theorem listening_port_from_PORT (max_str_digits : nat)
    (environ : gmap string string) :
  (environ !! "PORT" = None ->
   listening_port max_str_digits environ = Ok 8000) /\
  (forall z, Z.abs z < 2 ^ 639 ->
   environ !! "PORT" = Some (py_str z) ->
   listening_port max_str_digits environ = Ok z) /\
  (forall s, environ !! "PORT" = Some s ->
   all_chars numeric_char s = false ->
   listening_port max_str_digits environ = Raise ValueError).
Proof.
  unfold listening_port, main_uvicorn_args, os_getenv.
  split; [|split].
  - intros ->. reflexivity.
  - intros z Hz ->. cbn [py_int]. rewrite int_of_str_py_str by exact Hz.
    reflexivity.
  - intros s -> Hs. cbn [py_int]. rewrite int_of_str_not_numeric by exact Hs.
    reflexivity.
Qed.

Lemma listening_port_from_PORT_witness :
  listening_port 4300 ∅ = Ok 8000 /\
  listening_port 4300 {[ "PORT" := "8080" ]} = Ok 8080 /\
  listening_port 4300 {[ "PORT" := "80a" ]} = Raise ValueError.
Proof.
  split; [|split].
  - apply (proj1 (listening_port_from_PORT 4300 ∅)). reflexivity.
  - apply (proj1 (proj2 (listening_port_from_PORT 4300
                           {[ "PORT" := "8080" ]})) 8080).
    + reflexivity.
    + reflexivity.
  - apply (proj2 (proj2 (listening_port_from_PORT 4300
                           {[ "PORT" := "80a" ]})) "80a").
    + reflexivity.
    + reflexivity.
Defined.

(** C4 as stated fails: with a non-numeric [PORT] the port is not the
    default 8000; the evaluation raises. *)
Lemma listening_port_no_fallback :
  ({[ "PORT" := "abc" ]} : gmap string string) !! "PORT" = Some "abc" /\
  listening_port 4300 {[ "PORT" := "abc" ]} = Raise ValueError /\
  listening_port 4300 {[ "PORT" := "abc" ]} <> Ok 8000.
Proof.
  split; [reflexivity|]. split; [reflexivity|]. discriminate.
Qed.

(** ** Schema creation and the lifespan hook *)

Section Schema.

Implicit Types (metadata : list string) (d : Database) (w : World).

(** Ensure-create never meets a refusal: the check guards each
    [CREATE TABLE]. *)
Lemma ensure_tables_total metadata : forall d,
  exists d',
    ensure_tables metadata d = Ok d' /\
    online d' = online d /\
    tables d' = list_to_set metadata ∪ tables d.
Proof.
  induction metadata as [|t rest IH]; intros d; cbn [ensure_tables].
  - exists d. split; [reflexivity|]. split; [reflexivity|].
    cbn. set_solver.
  - destruct (decide (t ∈ tables d)) as [Hin|Hout].
    + destruct (IH d) as (d' & -> & Ho & Ht).
      exists d'. split; [reflexivity|]. split; [exact Ho|].
      rewrite Ht. cbn. set_solver.
    + unfold create_table. destruct (decide (t ∈ tables d)); [done|].
      cbn [bind].
      destruct (IH {| online := online d; tables := {[t]} ∪ tables d |})
        as (d' & -> & Ho & Ht).
      exists d'. split; [reflexivity|]. split; [exact Ho|].
      rewrite Ht. cbn. set_solver.
Qed.

Lemma ensure_tables_present metadata : forall d,
  (forall t, t ∈ metadata -> t ∈ tables d) ->
  ensure_tables metadata d = Ok d.
Proof.
  induction metadata as [|t rest IH]; intros d Hall; cbn [ensure_tables].
  - reflexivity.
  - destruct (decide (t ∈ tables d)) as [Hin|Hout].
    + apply IH. intros t' Ht'. apply Hall. set_solver.
    + exfalso. apply Hout, Hall. set_solver.
Qed.

Lemma create_all_Ok metadata d d' :
  create_all metadata d = Ok d' ->
  online d = true /\ online d' = true /\
  forall t, t ∈ metadata -> t ∈ tables d'.
Proof.
  unfold create_all. destruct (online d) eqn:Hon; [|discriminate].
  destruct (ensure_tables_total metadata d) as (d1 & -> & Ho & Ht).
  intros [= <-]. split; [reflexivity|]. split; [congruence|].
  intros t Hin. rewrite Ht. set_solver.
Qed.

Lemma create_all_present metadata d :
  online d = true ->
  (forall t, t ∈ metadata -> t ∈ tables d) ->
  create_all metadata d = Ok d.
Proof.
  intros Hon Hall. unfold create_all. rewrite Hon.
  apply ensure_tables_present, Hall.
Qed.

Lemma create_all_raises metadata d e :
  create_all metadata d = Raise e ->
  online d = false /\ e = OperationalError.
Proof.
  unfold create_all. destruct (online d).
  - destruct (ensure_tables_total metadata d) as (d1 & -> & _).
    discriminate.
  - intros [= <-]. split; reflexivity.
Qed.

Lemma set_db_same w : set_db (db w) w = w.
Proof. destruct w. reflexivity. Qed.

(** What entering the lifespan of [main.py] does. *)
Lemma aenter_lifespan metadata w :
  match create_all metadata (db w) with
  | Ok d => aenter metadata lifespan w = ([], set_db d w, Ok tt)
  | Raise e => aenter metadata lifespan w = ([], w, Raise e)
  end.
Proof.
  unfold aenter, lifespan. cbn [gen_next].
  destruct (create_all metadata (db w)); reflexivity.
Qed.

Lemma aenter_lifespan_Ok metadata w g w' :
  aenter metadata lifespan w = (g, w', Ok tt) ->
  g = [] /\ exists d, create_all metadata (db w) = Ok d /\ w' = set_db d w.
Proof.
  pose proof (aenter_lifespan metadata w) as H.
  destruct (create_all metadata (db w)) as [d|e]; rewrite H.
  - intros [= <- <-]. split; [reflexivity|]. exists d. split; reflexivity.
  - discriminate.
Qed.

Lemma aenter_lifespan_Raise metadata w g w' e :
  aenter metadata lifespan w = (g, w', Raise e) ->
  w' = w /\ create_all metadata (db w) = Raise e.
Proof.
  pose proof (aenter_lifespan metadata w) as H.
  destruct (create_all metadata (db w)) as [d|e']; rewrite H.
  - discriminate.
  - intros [= _ <- <-]. split; reflexivity.
Qed.

Lemma aenter_present metadata w :
  online (db w) = true ->
  (forall t, t ∈ metadata -> t ∈ tables (db w)) ->
  aenter metadata lifespan w = ([], w, Ok tt).
Proof.
  intros Hon Hall. pose proof (aenter_lifespan metadata w) as H.
  rewrite (create_all_present metadata (db w) Hon Hall) in H.
  rewrite H, set_db_same. reflexivity.
Qed.

End Schema.

(** C6: the start-up hook is idempotent. Against a database that answers
    and already holds every table of the metadata, entering the lifespan
    succeeds and leaves the world as it was; and a start-up that succeeded
    can be run again on the state it left, with the same result and no
    further change. *)
Theorem startup_hook_idempotent (metadata : list string) (w : World) :
  (online (db w) = true ->
   (forall t, t ∈ metadata -> t ∈ tables (db w)) ->
   create_all metadata (db w) = Ok (db w) /\
   aenter metadata lifespan w = ([], w, Ok tt)) /\
  (forall g w', aenter metadata lifespan w = (g, w', Ok tt) ->
   (forall t, t ∈ metadata -> t ∈ tables (db w')) /\
   aenter metadata lifespan w' = (g, w', Ok tt)).
Proof.
  split.
  - intros Hon Hall.
    pose proof (create_all_present metadata (db w) Hon Hall) as Hc.
    split; [exact Hc|].
    pose proof (aenter_lifespan metadata w) as H. rewrite Hc in H.
    rewrite H, set_db_same. reflexivity.
  - intros g w' Hent.
    apply aenter_lifespan_Ok in Hent as (-> & d & Hc & ->).
    apply create_all_Ok in Hc as (_ & Hon & Hall).
    split; [exact Hall|].
    pose proof (aenter_lifespan metadata (set_db d w)) as H.
    rewrite (create_all_present metadata (db (set_db d w)) Hon Hall) in H.
    rewrite H, set_db_same. reflexivity.
Qed.

Lemma startup_hook_idempotent_witness :
  aenter ["users"] lifespan sample_world = ([], sample_world, Ok tt) /\
  aenter ["users"] lifespan fresh_world = ([], sample_world, Ok tt) /\
  (forall t, t ∈ ["users"] -> t ∈ tables (db sample_world)).
Proof.
  assert (Hfresh : aenter ["users"] lifespan fresh_world
                   = ([], sample_world, Ok tt)).
  { unfold aenter, lifespan, fresh_world, sample_world, create_all.
    cbn [gen_next db online create_all ensure_tables].
    destruct (decide ("users" ∈ tables {| online := true; tables := ∅ |}))
      as [Hin|Hout]; [cbn in Hin; set_solver|].
    unfold create_table.
    destruct (decide ("users" ∈ tables {| online := true; tables := ∅ |}))
      as [Hin|_]; [cbn in Hin; set_solver|].
    cbn. unfold set_db. cbn.
    replace ({["users"]} ∪ ∅ : gset string) with ({["users"]} : gset string)
      by set_solver.
    reflexivity. }
  split; [|split].
  - apply (proj1 (startup_hook_idempotent ["users"] sample_world)).
    + reflexivity.
    + intros t Ht. apply list_elem_of_singleton in Ht as ->.
      cbn. set_solver.
  - exact Hfresh.
  - exact (proj1 (proj2 (startup_hook_idempotent ["users"] fresh_world)
                    [] sample_world Hfresh)).
Defined.

(** ** The route table *)

Section Routing.

Variable fw : Framework.

Lemma length_append (a b : string) :
  String.length (a ++ b) = (String.length a + String.length b)%nat.
Proof.
  induction a as [|c a IH]; simpl; [reflexivity | rewrite IH; reflexivity].
Qed.

Lemma compile_segs_lits pre : forall p n,
  all_chars (fun c => negb (code c =? 123)) pre = true ->
  compile_segs (String.length pre + n) (pre ++ p)
  = (lits pre ++ compile_segs n p)%list.
Proof.
  induction pre as [|c pre IH]; intros p n Hpre.
  - reflexivity.
  - cbn [all_chars] in Hpre. apply andb_prop in Hpre as [Hc Hpre].
    apply negb_true_iff in Hc.
    simpl. rewrite Hc. rewrite IH by exact Hpre. reflexivity.
Qed.

Lemma prefix_slash_app pre p :
  String.prefix "/" pre = true -> String.prefix "/" (pre ++ p) = true.
Proof.
  destruct pre as [|a pre]; [discriminate|].
  change (String a pre ++ p) with (String a (pre ++ p)).
  cbn [String.prefix]. destruct (ascii_dec "/" a); [|discriminate].
  intros _. destruct (pre ++ p); reflexivity.
Qed.

Lemma compile_path_prefix pre p :
  String.prefix "/" pre = true ->
  all_chars (fun c => negb (code c =? 123)) pre = true ->
  compile_path (pre ++ p)
  = (lits pre ++ compile_segs (String.length p) p)%list.
Proof.
  intros Hs H. unfold compile_path.
  rewrite (prefix_slash_app _ _ Hs), length_append.
  apply compile_segs_lits, H.
Qed.

(** A path that matches a pattern opening with literal characters opens
    with the same characters. *)
Lemma match_segs_lits pre : forall segs s,
  match_segs (accepts fw) (lits pre ++ segs) s = true ->
  exists rest, s = pre ++ rest.
Proof.
  induction pre as [|c pre IH]; intros segs s H.
  - exists s. reflexivity.
  - cbn [lits app match_segs] in H.
    destruct s as [|c' s]; [discriminate|].
    apply andb_prop in H as [Hc H]. apply Ascii.eqb_eq in Hc as <-.
    destruct (IH _ _ H) as [rest ->]. exists rest. reflexivity.
Qed.

Lemma mounted_match u rq :
  route_matches fw (mounted "/api/v1" u) rq <> NoMatch ->
  exists rest, req_path rq = "/api/v1" ++ rest.
Proof.
  unfold route_matches, mounted. cbn [path].
  rewrite compile_path_prefix by reflexivity.
  destruct (match_segs _ _ _) eqn:E; [|congruence].
  intros _. eapply match_segs_lits, E.
Qed.

Lemma mounted_no_match u rq :
  (forall rest, req_path rq <> "/api/v1" ++ rest) ->
  route_matches fw (mounted "/api/v1" u) rq = NoMatch.
Proof.
  intros H. destruct (route_matches fw (mounted "/api/v1" u) rq) eqn:E;
    [reflexivity| |];
    destruct (mounted_match u rq) as [rest Hr]; try congruence;
    exfalso; exact (H _ Hr).
Qed.

Lemma find_route_skip l1 : forall l2 partial rq,
  (forall r, r ∈ l1 -> route_matches fw r rq = NoMatch) ->
  find_route fw (l1 ++ l2) partial rq = find_route fw l2 partial rq.
Proof.
  induction l1 as [|r l1 IH]; intros l2 partial rq H; [reflexivity|].
  cbn [app find_route]. rewrite (H r) by set_solver.
  apply IH. intros r' Hr'. apply H. set_solver.
Qed.

Lemma find_route_skip_mounted us l2 partial rq :
  (forall rest, req_path rq <> "/api/v1" ++ rest) ->
  find_route fw (map (mounted "/api/v1") us ++ l2) partial rq
  = find_route fw l2 partial rq.
Proof.
  intros H. apply find_route_skip. intros r Hr.
  apply list_elem_of_fmap in Hr as (u & -> & _).
  apply mounted_no_match, H.
Qed.

End Routing.

Section Application.

(** What the module body leaves behind when it runs to its end. *)
Lemma main_module_inv iu idb app md :
  main_module iu idb = Ok (app, md) ->
  exists us,
    iu = Ok us /\ idb = Ok md /\
    lifespan_context app = lifespan /\
    user_middleware app = [MwCORS main_cors_args] /\
    routes app
    = (docs_routes ++ map (mounted "/api/v1") us
       ++ [ {| path := "/"; methods := ["GET"]; endpoint := EpRoot |};
            {| path := "/health"; methods := ["GET"];
               endpoint := EpHealthCheck |} ])%list.
Proof.
  unfold main_module. destruct iu as [us|e]; [|discriminate].
  destruct idb as [md'|e]; [|discriminate].
  cbn. intros [= <- <-]. exists us. cbn.
  repeat split. rewrite <- !app_assoc. reflexivity.
Qed.

Lemma main_module_Ok us md :
  exists app, main_module (Ok us) (Ok md) = Ok (app, md).
Proof. eexists. reflexivity. Qed.

End Application.

(** ** The two status endpoints through the whole stack *)

Section StatusEndpoints.

Variable fw : Framework.

Lemma docs_routes_no_match rq r :
  req_path rq = "/" \/ req_path rq = "/health" ->
  r ∈ docs_routes -> route_matches fw r rq = NoMatch.
Proof.
  intros Hp Hr. unfold docs_routes in Hr. unfold route_matches.
  repeat (apply elem_of_cons in Hr as [-> | Hr]);
    try (destruct Hp as [-> | ->]; reflexivity).
  inversion Hr.
Qed.

Lemma router_root us rq w :
  req_method rq = "GET" -> req_path rq = "/" ->
  router_app fw
    (docs_routes ++ map (mounted "/api/v1") us
     ++ [ {| path := "/"; methods := ["GET"]; endpoint := EpRoot |};
          {| path := "/health"; methods := ["GET"];
             endpoint := EpHealthCheck |} ])%list rq w
  = (w, Returns (JSONResponse
           (JObject [("message", JString "FastAPI Backend is running!")])
           200 [])).
Proof.
  intros Hm Hp. unfold router_app.
  rewrite find_route_skip
    by (intros r Hr; apply docs_routes_no_match; auto).
  rewrite find_route_skip_mounted
    by (rewrite Hp; intros rest H; simpl in H; discriminate).
  cbn [find_route]. unfold route_matches. cbn [path methods].
  rewrite Hp, Hm.
  replace (match_segs (accepts fw) (compile_path "/") "/") with true
    by reflexivity.
  change (mem "GET" ["GET"]) with true. cbv beta iota.
  unfold route_handle. cbn [methods endpoint]. rewrite Hm.
  change (mem "GET" ["GET"]) with true. cbv beta iota.
  reflexivity.
Qed.

Lemma router_health us rq w :
  req_method rq = "GET" -> req_path rq = "/health" ->
  router_app fw
    (docs_routes ++ map (mounted "/api/v1") us
     ++ [ {| path := "/"; methods := ["GET"]; endpoint := EpRoot |};
          {| path := "/health"; methods := ["GET"];
             endpoint := EpHealthCheck |} ])%list rq w
  = (w, Returns (JSONResponse
           (JObject [("status", JString "OK");
                     ("message", JString "API is healthy")])
           200 [])).
Proof.
  intros Hm Hp. unfold router_app.
  rewrite find_route_skip
    by (intros r Hr; apply docs_routes_no_match; auto).
  rewrite find_route_skip_mounted
    by (rewrite Hp; intros rest H; simpl in H; discriminate).
  cbn [find_route]. unfold route_matches. cbn [path methods].
  rewrite Hp, Hm.
  replace (match_segs (accepts fw) (compile_path "/") "/health")
    with false by reflexivity.
  replace (match_segs (accepts fw) (compile_path "/health") "/health")
    with true by reflexivity.
  change (mem "GET" ["GET"]) with true. cbv beta iota.
  unfold route_handle. cbn [methods endpoint]. rewrite Hm.
  change (mem "GET" ["GET"]) with true. cbv beta iota.
  reflexivity.
Qed.

Lemma get_not_preflight rq : req_method rq = "GET" -> is_preflight rq = false.
Proof. unfold is_preflight. intros ->. reflexivity. Qed.

(** The CORS middleware touches headers only. *)
Lemma cors_keeps_status_body v c (inner : Asgi) rq w w' r0 :
  is_preflight rq = false ->
  inner rq w = (w', Ok r0) ->
  exists hs,
    CORSMiddleware v c inner rq w
    = (w', Ok {| status := status r0; resp_headers := hs;
                 body := body r0 |}).
Proof.
  intros Hpre Hin. unfold CORSMiddleware. rewrite Hpre, Hin.
  destruct (get_header "origin" (req_headers rq)).
  - eexists. unfold cors_send. reflexivity.
  - destruct (vary_without_origin v).
    + eexists. unfold mark_vary. reflexivity.
    + exists (resp_headers r0). destruct r0. reflexivity.
Qed.

Lemma asgi_status_endpoint app rq w v :
  user_middleware app = [MwCORS main_cors_args] ->
  req_method rq = "GET" ->
  router_app fw (routes app) rq w = (w, Returns (JSONResponse v 200 [])) ->
  exists hs,
    asgi_app fw app rq w
    = (w, {| status := 200; resp_headers := hs; body := JsonBody v |}).
Proof.
  intros Hmw Hm Hr. unfold asgi_app. rewrite Hmw.
  cbn [fold_right apply_middleware].
  destruct (cors_keeps_status_body (release fw)
              (cors_init (release fw) main_cors_args)
              (ExceptionMiddleware (router_app fw (routes app)))
              rq w w (JSONResponse v 200 [])) as [hs Hc].
  - apply get_not_preflight, Hm.
  - unfold ExceptionMiddleware. rewrite Hr. reflexivity.
  - exists hs. unfold ServerErrorMiddleware. rewrite Hc. reflexivity.
Qed.

End StatusEndpoints.

(** C1: whatever the query string and the headers, a GET on [/] is
    answered by [root]: status 200, the body
    [{"message": "FastAPI Backend is running!"}], and the world is left as
    it was. *)
Theorem get_root_response (fw : Framework) (iu : result (list UserRoute))
    (idb : result (list string)) (app : FastAPI) (md : list string)
    (rq : Request) (w : World) :
  main_module iu idb = Ok (app, md) ->
  req_method rq = "GET" ->
  req_path rq = "/" ->
  root w
  = (w, Ok (JObject [("message", JString "FastAPI Backend is running!")])) /\
  exists hs,
    asgi_app fw app rq w
    = (w, {| status := 200; resp_headers := hs;
             body := JsonBody
               (JObject [("message",
                          JString "FastAPI Backend is running!")]) |}).
Proof.
  intros Hmain Hm Hp. split; [reflexivity|].
  apply main_module_inv in Hmain as (us & _ & _ & _ & Hmw & Hroutes).
  apply asgi_status_endpoint; [exact Hmw | exact Hm |].
  rewrite Hroutes. apply router_root; assumption.
Qed.

Lemma get_root_response_witness :
  exists hs,
    asgi_app sample_framework sample_app
      {| req_method := "GET"; req_path := "/"; req_query := "verbose=1";
         req_headers := [("origin", "https://example.org");
                         ("cookie", "session=1")] |}
      sample_world
    = (sample_world,
       {| status := 200; resp_headers := hs;
          body := JsonBody
            (JObject [("message",
                       JString "FastAPI Backend is running!")]) |}).
Proof.
  apply (get_root_response sample_framework (Ok sample_users) (Ok ["users"])
           sample_app ["users"]); reflexivity.
Defined.

(** C2: a GET on [/health] is answered by [health_check]: status 200, the
    body [{"status": "OK", "message": "API is healthy"}]; nothing of the
    request is read, the world is left as it was, and the handler has no
    failing path. *)
Theorem get_health_response (fw : Framework) (iu : result (list UserRoute))
    (idb : result (list string)) (app : FastAPI) (md : list string)
    (rq : Request) (w : World) :
  main_module iu idb = Ok (app, md) ->
  req_method rq = "GET" ->
  req_path rq = "/health" ->
  health_check w
  = (w, Ok (JObject [("status", JString "OK");
                     ("message", JString "API is healthy")])) /\
  exists hs,
    asgi_app fw app rq w
    = (w, {| status := 200; resp_headers := hs;
             body := JsonBody
               (JObject [("status", JString "OK");
                         ("message", JString "API is healthy")]) |}).
Proof.
  intros Hmain Hm Hp. split; [reflexivity|].
  apply main_module_inv in Hmain as (us & _ & _ & _ & Hmw & Hroutes).
  apply asgi_status_endpoint; [exact Hmw | exact Hm |].
  rewrite Hroutes. apply router_health; assumption.
Qed.

Lemma get_health_response_witness :
  exists hs,
    asgi_app sample_framework sample_app (get "/health" []) fresh_world
    = (fresh_world,
       {| status := 200; resp_headers := hs;
          body := JsonBody
            (JObject [("status", JString "OK");
                      ("message", JString "API is healthy")]) |}).
Proof.
  apply (get_health_response sample_framework (Ok sample_users)
           (Ok ["users"]) sample_app ["users"]); reflexivity.
Defined.

(** C9: the two status handlers are deterministic. Two calls of [root]
    return equal values whatever the two worlds, and so do two calls of
    [health_check]; the request handlers built on them return equal
    outcomes whatever the two requests. *)
Theorem status_handlers_deterministic (rq1 rq2 : Request) (w1 w2 : World) :
  snd (root w1) = snd (root w2) /\
  snd (health_check w1) = snd (health_check w2) /\
  snd (api_handler root rq1 w1) = snd (api_handler root rq2 w2) /\
  snd (api_handler health_check rq1 w1)
  = snd (api_handler health_check rq2 w2).
Proof. repeat split. Qed.

(** C8: when the module body runs to its end, the route table is the
    documentation routes, then every route of [users.router] with its path
    prefixed by [/api/v1] (same methods, same endpoint), then the two
    status routes; a route that calls an endpoint of the users router has
    a prefixed path. Mounting under [/api/v1] itself never raises: the
    module body fails only when an import fails, and then no application
    exists and the process does not start. *)
Theorem users_router_mounted (max_str_digits : nat)
    (environ : gmap string string) (iu : result (list UserRoute))
    (idb : result (list string)) :
  (forall app us, exists app', include_router app us "/api/v1" = Ok app') /\
  match main_module iu idb with
  | Ok (app, md) =>
      exists us,
        iu = Ok us /\ idb = Ok md /\
        routes app
        = (docs_routes ++ map (mounted "/api/v1") us
           ++ [ {| path := "/"; methods := ["GET"]; endpoint := EpRoot |};
                {| path := "/health"; methods := ["GET"];
                   endpoint := EpHealthCheck |} ])%list /\
        (forall u, u ∈ us ->
           {| path := "/api/v1" ++ u_path u; methods := u_methods u;
              endpoint := EpUsers (u_handler u) |} ∈ routes app) /\
        (forall r h, r ∈ routes app -> endpoint r = EpUsers h ->
           exists u, u ∈ us /\ path r = "/api/v1" ++ u_path u)
  | Raise e =>
      (iu = Raise e \/ exists us, iu = Ok us /\ idb = Raise e) /\
      python_main max_str_digits environ iu idb = Raise e
  end.
Proof.
  split; [intros app us; eexists; reflexivity|].
  destruct (main_module iu idb) as [[app md]|e] eqn:E.
  - destruct (main_module_inv _ _ _ _ E) as (us & -> & -> & _ & _ & Hr).
    exists us. split; [reflexivity|]. split; [reflexivity|].
    split; [exact Hr|]. rewrite Hr. split.
    + intros u Hu. apply elem_of_app. right. apply elem_of_app. left.
      apply list_elem_of_fmap. exists u. split; [reflexivity | exact Hu].
    + intros r h Hin Hep.
      apply elem_of_app in Hin as [Hin | Hin];
        [|apply elem_of_app in Hin as [Hin | Hin]].
      * unfold docs_routes in Hin.
        repeat (apply elem_of_cons in Hin as [-> | Hin]);
          try discriminate Hep. inversion Hin.
      * apply list_elem_of_fmap in Hin as (u & -> & Hu).
        exists u. split; [exact Hu | reflexivity].
      * repeat (apply elem_of_cons in Hin as [-> | Hin]);
          try discriminate Hep. inversion Hin.
  - unfold python_main. rewrite E. split; [|reflexivity].
    destruct iu as [us|e1]; [|left; cbn in E; congruence].
    destruct idb as [md|e2]; [|right; exists us; cbn in E; split; congruence].
    destruct (main_module_Ok us md) as [app Happ]. congruence.
Qed.

(** ** Response headers *)

Section Headers.

Implicit Types (k v : string) (l hs : list (string * string)).

Lemma has_header_cons k k' v' l :
  has_header k ((k', v') :: l)
  = if String.eqb k' k then true else has_header k l.
Proof.
  unfold has_header. cbn [get_header]. destruct (String.eqb k' k); reflexivity.
Qed.

Lemma get_header_replace_same k v l :
  has_header k l = true ->
  get_header k (replace_header k v false l) = Some v.
Proof.
  induction l as [|[k' v'] l IH]; [discriminate|].
  rewrite has_header_cons. cbn [replace_header].
  destruct (String.eqb k' k) eqn:E; intros H; cbn [get_header].
  - rewrite String.eqb_refl. reflexivity.
  - rewrite E. apply IH, H.
Qed.

Lemma get_header_replace_other k k0 v l : forall seen,
  k0 <> k ->
  get_header k0 (replace_header k v seen l) = get_header k0 l.
Proof.
  induction l as [|[k' v'] l IH]; intros seen Hne; [reflexivity|].
  cbn [replace_header get_header].
  destruct (String.eqb k' k) eqn:E.
  - apply String.eqb_eq in E as ->.
    assert (Hk : String.eqb k k0 = false)
      by (apply String.eqb_neq; congruence).
    rewrite Hk. destruct seen; cbn [get_header]; rewrite ?Hk; apply IH, Hne.
  - cbn [get_header]. destruct (String.eqb k' k0); [reflexivity|].
    apply IH, Hne.
Qed.

Lemma get_header_app_same k v l :
  has_header k l = false -> get_header k (l ++ [(k, v)]) = Some v.
Proof.
  induction l as [|[k' v'] l IH]; cbn [app get_header].
  - intros _. rewrite String.eqb_refl. reflexivity.
  - rewrite has_header_cons. destruct (String.eqb k' k); [discriminate|].
    exact IH.
Qed.

Lemma get_header_app_other k k0 v l :
  k0 <> k -> get_header k0 (l ++ [(k, v)]) = get_header k0 l.
Proof.
  intros Hne. induction l as [|[k' v'] l IH]; cbn [app get_header].
  - replace (String.eqb k k0) with false; [reflexivity|].
    symmetry. apply String.eqb_neq. congruence.
  - destruct (String.eqb k' k0); [reflexivity | exact IH].
Qed.

Lemma get_set_same name v hs :
  get_header (lower name) (set_header name v hs) = Some v.
Proof.
  unfold set_header. destruct (has_header (lower name) hs) eqn:E.
  - apply get_header_replace_same, E.
  - apply get_header_app_same, E.
Qed.

Lemma get_set_other name k0 v hs :
  k0 <> lower name ->
  get_header k0 (set_header name v hs) = get_header k0 hs.
Proof.
  intros Hne. unfold set_header. destruct (has_header (lower name) hs).
  - apply get_header_replace_other, Hne.
  - apply get_header_app_other, Hne.
Qed.

Lemma get_set_eq name k0 v hs :
  k0 = lower name -> get_header k0 (set_header name v hs) = Some v.
Proof. intros ->. apply get_set_same. Qed.

End Headers.

Ltac headers :=
  repeat first
    [ rewrite get_set_eq by reflexivity
    | rewrite get_set_other by (vm_compute; discriminate) ].

Section Cors.

Variable v : Release.

Lemma main_cors_attributes :
  simple_headers (cors_init v main_cors_args)
  = [("Access-Control-Allow-Origin", "*");
     ("Access-Control-Allow-Credentials", "true")] /\
  preflight_headers (cors_init v main_cors_args)
  = [("Vary", "Origin");
     ("Access-Control-Allow-Methods", join ", " (ALL_METHODS v));
     ("Access-Control-Max-Age", "600");
     ("Access-Control-Allow-Credentials", "true")] /\
  allow_all_origins (cors_init v main_cors_args) = true /\
  allow_all_headers (cors_init v main_cors_args) = true /\
  preflight_explicit_allow_origin (cors_init v main_cors_args) = true /\
  cors_allow_methods (cors_init v main_cors_args) = ALL_METHODS v.
Proof. repeat split. Qed.



End Cors.




(** ** The life of the process *)

Section Traces.

Lemma hook_ready_app t1 : forall r t2,
  hook_ready r (t1 ++ t2) = hook_ready (hook_ready r t1) t2.
Proof.
  induction t1 as [|e t1 IH]; intros r t2; [reflexivity|].
  destruct e; cbn [app hook_ready]; apply IH.
Qed.

Lemma hook_before_accept_app t1 : forall r t2,
  hook_before_accept r (t1 ++ t2)
  = hook_before_accept r t1 && hook_before_accept (hook_ready r t1) t2.
Proof.
  induction t1 as [|e t1 IH]; intros r t2; [reflexivity|].
  destruct e; cbn [app hook_before_accept hook_ready]; rewrite ?IH;
    try reflexivity.
  rewrite andb_assoc. reflexivity.
Qed.

(** Reading [hook_before_accept]: before each accepted request the
    trace shows a completed hook with no worker start after it. *)
Lemma hook_before_accept_spec tr : forall r pre rq post,
  hook_before_accept r tr = true ->
  tr = (pre ++ Accepted rq :: post)%list ->
  (r = true /\ WorkerStarted ∉ pre) \/
  exists p1 p2, pre = (p1 ++ HookCompleted :: p2)%list /\ WorkerStarted ∉ p2.
Proof.
  induction tr as [|e tr IH]; intros r pre rq post H Heq.
  - destruct pre; discriminate.
  - destruct pre as [|e' pre].
    + injection Heq as -> _. cbn [hook_before_accept] in H.
      apply andb_prop in H as [-> _]. left. split; [reflexivity|].
      apply not_elem_of_nil.
    + injection Heq as <- Heq.
      assert (Hcons : forall r',
        hook_before_accept r' tr = true ->
        (r' = true /\ WorkerStarted ∉ pre) \/
        exists p1 p2, pre = (p1 ++ HookCompleted :: p2)%list
                      /\ WorkerStarted ∉ p2)
        by (intros r' Hr'; eapply IH; eauto).
      assert (Hright : forall p1 p2,
        pre = (p1 ++ HookCompleted :: p2)%list -> WorkerStarted ∉ p2 ->
        exists q1 q2, e :: pre = (q1 ++ HookCompleted :: q2)%list
                      /\ WorkerStarted ∉ q2)
        by (intros p1 p2 -> Hn; exists (e :: p1), p2; split; auto).
      destruct e; cbn [hook_before_accept] in H;
        try (destruct (Hcons r H) as [[-> Hn] | (p1 & p2 & Hp & Hn)];
             [ left; split; [reflexivity|];
               apply not_elem_of_cons; split; [discriminate | exact Hn]
             | right; eapply Hright; eauto ]).
      * destruct (Hcons false H) as [[? _] | (p1 & p2 & Hp & Hn)];
          [discriminate | right; eapply Hright; eauto].
      * destruct (Hcons true H) as [[_ Hn] | (p1 & p2 & Hp & Hn)];
          [ right; exists [], pre; split; [reflexivity | exact Hn]
          | right; eapply Hright; eauto ].
      * apply andb_prop in H as [-> H].
        destruct (Hcons true H) as [[_ Hn] | (p1 & p2 & Hp & Hn)];
          [ left; split; [reflexivity|];
            apply not_elem_of_cons; split; [discriminate | exact Hn]
          | right; eapply Hright; eauto ].
Qed.

End Traces.

Section Lifecycle.

Variables (fw : Framework) (metadata : list string) (app : FastAPI)
          (args : UvicornArgs).
Hypothesis Hlifespan : lifespan_context app = lifespan.

Lemma aexit_suspended w : aexit metadata [] w = ([], w, Ok tt).
Proof. reflexivity. Qed.

Lemma spawn_inv w q tr :
  hook_before_accept false tr = true -> lifecycle_inv (spawn app w q tr).
Proof.
  intros H. unfold lifecycle_inv, spawn. cbn [trace phase gen].
  rewrite hook_before_accept_app, H. split; [reflexivity | exact Hlifespan].
Qed.

Lemma wstep_inv s s' :
  wstep fw metadata app args s s' -> lifecycle_inv s -> lifecycle_inv s'.
Proof.
  unfold lifecycle_inv.
  intros Hstep [Htr Hph];
    destruct Hstep as [s rq Hrun | s Hb | s g' w' Hs Hent
                      | s g' w' e Hs Hent | s rq rest w' r Hs Hq Hr
                      | s g' w' res Hs Hex];
    cbn [trace phase gen];
    rewrite ?hook_before_accept_app, ?hook_ready_app, ?Htr;
    try rewrite Hb in Hph; try rewrite Hs in Hph.
  - split; [reflexivity | exact Hph].
  - split; [reflexivity | exact Hph].
  - rewrite Hph in Hent. apply aenter_lifespan_Ok in Hent as [-> _].
    repeat split.
  - repeat split.
  - destruct Hph as [Hg Hready]. rewrite Hready. repeat split. exact Hg.
  - repeat split.
Qed.

Lemma step_inv s s' :
  step fw metadata app args s s' -> lifecycle_inv s -> lifecycle_inv s'.
Proof.
  intros [s0 s1 Hw | s0 g' w' res Hre Hs Hex | s0 Hre Hs] Hinv.
  - eapply wstep_inv; eauto.
  - apply spawn_inv. rewrite hook_before_accept_app.
    destruct Hinv as [-> _]. reflexivity.
  - apply spawn_inv. apply Hinv.
Qed.

Lemma reachable_inv w s :
  rtc (step fw metadata app args) (boot app w) s -> lifecycle_inv s.
Proof.
  apply (rtc_ind_r lifecycle_inv (boot app w)).
  - apply spawn_inv. reflexivity.
  - intros y z _ Hstep IH. eapply step_inv; eauto.
Qed.

(** While the hook has not completed, no step accepts a request. *)
Lemma pending_blocks_accept s s' :
  step fw metadata app args s s' ->
  phase s = Built \/ phase s = Starting ->
  List.filter is_accept (trace s') = List.filter is_accept (trace s).
Proof.
  intros [s0 s1 Hw | s0 g' w' res Hre Hs Hex | s0 Hre Hs] Hph.
  - destruct Hw; cbn [trace]; rewrite ?List.filter_app; cbn [List.filter is_accept];
      rewrite ?app_nil_r; try reflexivity;
      destruct Hph; congruence.
  - destruct Hph; congruence.
  - destruct Hph; congruence.
Qed.

(** The only way into [Serving] is a hook that ran to its yield. *)
Lemma serving_after_create_all s s' :
  lifecycle_inv s ->
  step fw metadata app args s s' ->
  phase s = Starting -> phase s' = Serving ->
  exists d,
    create_all metadata (db (world s)) = Ok d /\
    world s' = set_db d (world s) /\
    forall t, t ∈ metadata -> t ∈ tables (db (world s')).
Proof.
  intros [_ Hinv] Hstep Hs Hs'. rewrite Hs in Hinv.
  destruct Hstep as [s0 s1 Hw | s0 g' w' res Hre Hs0 Hex | s0 Hre Hs0];
    [|congruence|congruence].
  destruct Hw; cbn [phase world] in *; try congruence.
  rewrite Hinv in *.
  match goal with
  | H : aenter _ _ _ = _ |- _ =>
      apply aenter_lifespan_Ok in H as (_ & d & Hc & ->)
  end.
  exists d. split; [exact Hc|]. split; [reflexivity|].
  apply create_all_Ok in Hc as (_ & _ & Hall). exact Hall.
Qed.

(** Leaving [Serving], by shutdown or by restart, runs the rest of the
    generator, which is empty. *)
Lemma leaving_serving_keeps_world s s' :
  lifecycle_inv s ->
  step fw metadata app args s s' ->
  phase s = Serving -> phase s' = Stopped \/ phase s' = Built ->
  world s' = world s.
Proof.
  intros [_ Hinv] Hstep Hs Hs'. rewrite Hs in Hinv. destruct Hinv as [Hg _].
  destruct Hstep as [s0 s1 Hw | s0 g' w' res Hre Hs0 Hex | s0 Hre Hs0].
  - destruct Hw; cbn [phase world] in *; try reflexivity;
      try (destruct Hs'; congruence).
    rewrite Hg, aexit_suspended in *. congruence.
  - cbn [spawn world]. rewrite Hg, aexit_suspended in Hex. congruence.
  - congruence.
Qed.

Lemma failing_step w e s s' :
  create_all metadata (db w) = Raise e ->
  step fw metadata app args s s' ->
  failing_inv args w e s -> failing_inv args w e s'.
Proof.
  intros Hfail Hstep (Hw & Hacc & Hph). unfold failing_inv.
  destruct Hstep as [s0 s1 Hws | s0 g' w' res Hre Hs0 Hex | s0 Hre Hs0].
  - destruct Hws as [s rq Hrun | s Hb | s g' w' Hs Hent
                    | s g' w' e' Hs Hent | s rq rest w' r Hs Hq Hr
                    | s g' w' res Hs Hex];
      cbn [trace phase gen world exit_status];
      rewrite ?List.filter_app, ?Hacc; cbn [List.filter is_accept Datatypes.app];
      try rewrite Hb in Hph; try rewrite Hs in Hph; try contradiction.
    + split; [exact Hw|]. split; [reflexivity | exact Hph].
    + split; [exact Hw|]. split; [reflexivity | exact Hph].
    + destruct Hph as [Hg _]. rewrite Hg, Hw in Hent.
      apply aenter_lifespan_Ok in Hent as (_ & d & Hc & _). congruence.
    + destruct Hph as [Hg _]. rewrite Hg, Hw in Hent.
      apply aenter_lifespan_Raise in Hent as [-> Hc].
      split; [reflexivity|]. split; [reflexivity|].
      split; [|reflexivity].
      exists (trace s). congruence.
  - rewrite Hs0 in Hph. contradiction.
  - cbn [spawn trace phase gen world exit_status].
    rewrite List.filter_app, Hacc. cbn [List.filter is_accept Datatypes.app].
    repeat split; assumption.
Qed.

Lemma failing_reachable w e s :
  create_all metadata (db w) = Raise e ->
  rtc (step fw metadata app args) (boot app w) s ->
  failing_inv args w e s.
Proof.
  intros Hfail.
  apply (rtc_ind_r (failing_inv args w e) (boot app w)).
  - unfold failing_inv, boot, spawn. cbn. repeat split. exact Hlifespan.
  - intros y z _ Hstep IH. eapply failing_step; eauto.
Qed.

End Lifecycle.

(** Two runs of the application on the example worlds. *)
Lemma sample_run_served :
  rtc (step sample_framework ["users"] sample_app sample_args)
    (boot sample_app sample_world) sample_served.
Proof.
  eapply rtc_l; [apply step_worker, step_startup_begin; reflexivity|].
  eapply rtc_l.
  { apply step_worker.
    apply (step_startup_complete _ _ _ _ _ [] sample_world); [reflexivity|].
    apply (aenter_present ["users"] sample_world); [reflexivity|].
    intros t Ht. apply list_elem_of_singleton in Ht as ->. cbn. set_solver. }
  eapply rtc_l.
  { apply step_worker. apply (step_connect _ _ _ _ _ (get "/" [])).
    reflexivity. }
  eapply rtc_l.
  { apply step_worker.
    apply (step_serve _ _ _ _ _ (get "/" []) [] sample_world
             (snd (asgi_app sample_framework sample_app (get "/" [])
                     sample_world)));
      reflexivity. }
  apply rtc_refl.
Qed.

Lemma sample_run_failed :
  rtc (step sample_framework ["users"] sample_app sample_args)
    (boot sample_app offline_world) sample_failed.
Proof.
  eapply rtc_l; [apply step_worker, step_startup_begin; reflexivity|].
  eapply rtc_l.
  { apply step_worker.
    apply (step_startup_failed _ _ _ _ _ [] offline_world OperationalError);
      reflexivity. }
  apply rtc_refl.
Qed.

(** C5: in every execution, each accepted request comes after a completed
    start-up hook of the worker that accepts it (a [HookCompleted] with no
    worker start after it); while the worker is built or running its hook
    no step accepts a request; and the step into [Serving] is the hook
    running to its yield: [Base.metadata.create_all] has returned and
    every table of the metadata exists. *)
Theorem no_request_before_startup_hook (fw : Framework)
    (iu : result (list UserRoute)) (idb : result (list string))
    (app : FastAPI) (md : list string) (args : UvicornArgs)
    (w : World) (s : Server) :
  main_module iu idb = Ok (app, md) ->
  rtc (step fw md app args) (boot app w) s ->
  (forall pre rq post,
     trace s = (pre ++ Accepted rq :: post)%list ->
     exists p1 p2,
       pre = (p1 ++ HookCompleted :: p2)%list /\ WorkerStarted ∉ p2) /\
  (forall s', step fw md app args s s' ->
     phase s = Built \/ phase s = Starting ->
     List.filter is_accept (trace s') = List.filter is_accept (trace s)) /\
  (forall s', step fw md app args s s' ->
     phase s = Starting -> phase s' = Serving ->
     exists d,
       create_all md (db (world s)) = Ok d /\
       world s' = set_db d (world s) /\
       forall t, t ∈ md -> t ∈ tables (db (world s'))).
Proof.
  intros Hmain Hreach.
  apply main_module_inv in Hmain as (us & _ & _ & Hls & _ & _).
  pose proof (reachable_inv fw md app args Hls w s Hreach) as Hinv.
  split; [|split].
  - intros pre rq post Heq.
    destruct (hook_before_accept_spec (trace s) false pre rq post
                (proj1 Hinv) Heq) as [[? _] | H]; [discriminate | exact H].
  - intros s' Hstep Hph. eapply pending_blocks_accept; eauto.
  - intros s' Hstep Hs Hs'. eapply serving_after_create_all; eauto.
Qed.

Lemma no_request_before_startup_hook_witness :
  trace sample_served
  = ([WorkerStarted; HookStarted; HookCompleted]
     ++ Accepted (get "/" [])
        :: [Responded (snd (asgi_app sample_framework sample_app
                              (get "/" []) sample_world))])%list /\
  exists p1 p2,
    [WorkerStarted; HookStarted; HookCompleted]
    = (p1 ++ HookCompleted :: p2)%list /\ WorkerStarted ∉ p2.
Proof.
  split; [reflexivity|].
  apply (proj1 (no_request_before_startup_hook sample_framework
                  (Ok sample_users) (Ok ["users"]) sample_app ["users"]
                  sample_args sample_world sample_served
                  eq_refl sample_run_served)
           [WorkerStarted; HookStarted; HookCompleted] (get "/" [])
           [Responded (snd (asgi_app sample_framework sample_app
                              (get "/" []) sample_world))]).
  reflexivity.
Defined.

(** C10: the teardown of the lifespan hook does nothing. Once the hook has
    yielded, no statement of the generator is left; resuming it ends it
    at once, whatever the world, and leaves the world as it is; entering
    it changed the database only. In every execution, the step that takes
    a serving worker down (shutdown or restart) leaves the world
    unchanged. *)
Theorem lifespan_teardown_noop (fw : Framework)
    (iu : result (list UserRoute)) (idb : result (list string))
    (app : FastAPI) (md : list string) (args : UvicornArgs)
    (w : World) (s : Server) :
  main_module iu idb = Ok (app, md) ->
  rtc (step fw md app args) (boot app w) s ->
  (forall w0 g w1,
     aenter md (lifespan_context app) w0 = (g, w1, Ok tt) ->
     g = [] /\ heap w1 = heap w0 /\
     forall w2, aexit md g w2 = ([], w2, Ok tt)) /\
  (forall s', step fw md app args s s' ->
     phase s = Serving -> phase s' = Stopped \/ phase s' = Built ->
     world s' = world s).
Proof.
  intros Hmain Hreach.
  apply main_module_inv in Hmain as (us & _ & _ & Hls & _ & _).
  pose proof (reachable_inv fw md app args Hls w s Hreach) as Hinv.
  split.
  - intros w0 g w1 Hent. rewrite Hls in Hent.
    apply aenter_lifespan_Ok in Hent as (-> & d & _ & ->).
    split; [reflexivity|]. split; [reflexivity|].
    intros w2. reflexivity.
  - intros s' Hstep Hs Hs'.
    eapply leaving_serving_keeps_world; eauto.
Qed.

Lemma lifespan_teardown_noop_witness :
  step sample_framework ["users"] sample_app sample_args
    sample_served sample_stopped /\
  world sample_stopped = world sample_served.
Proof.
  assert (Hstep : step sample_framework ["users"] sample_app sample_args
                    sample_served sample_stopped).
  { apply step_worker.
    apply (step_shutdown _ _ _ _ sample_served [] sample_world (Ok tt));
      reflexivity. }
  split; [exact Hstep|].
  apply (proj2 (lifespan_teardown_noop sample_framework
                  (Ok sample_users) (Ok ["users"]) sample_app ["users"]
                  sample_args sample_world sample_served
                  eq_refl sample_run_served) sample_stopped Hstep).
  - reflexivity.
  - left. reflexivity.
Defined.

(** C7, as the code has it: when the start-up hook raises, no worker
    reaches [Serving] and no request is ever accepted; the world is left
    as it was; the worker that runs the hook fails, and the error is
    written to the log. The process ends with status 3 only when it runs
    without the reloader; [main.py] passes [reload=True], under which the
    supervising process stays alive. *)
Theorem startup_failure_aborts (fw : Framework)
    (iu : result (list UserRoute)) (idb : result (list string))
    (app : FastAPI) (md : list string) (args : UvicornArgs)
    (w : World) (e : PyExn) (s : Server) :
  main_module iu idb = Ok (app, md) ->
  create_all md (db w) = Raise e ->
  rtc (step fw md app args) (boot app w) s ->
  phase s <> Serving /\
  List.filter is_accept (trace s) = [] /\
  world s = w /\
  (phase s = Starting ->
   exists s', wstep fw md app args s s' /\ phase s' = Failed /\
              trace s' = (trace s ++ [HookFailed e])%list) /\
  (phase s = Failed ->
   (exists t0, trace s = (t0 ++ [HookFailed e])%list) /\
   exit_status s = if reload args then Running else Exited 3) /\
  (forall m environ a, main_uvicorn_args m environ = Ok a -> reload a = true).
Proof.
  intros Hmain Hfail Hreach.
  apply main_module_inv in Hmain as (us & _ & _ & Hls & _ & _).
  destruct (failing_reachable fw md app args Hls w e s Hfail Hreach)
    as (Hw & Hacc & Hph).
  split; [intros Hs; rewrite Hs in Hph; exact Hph|].
  split; [exact Hacc|]. split; [exact Hw|].
  split; [|split].
  - intros Hs. rewrite Hs in Hph. destruct Hph as [Hg _].
    eexists. split.
    + apply (step_startup_failed fw md app args s [] w e Hs).
      rewrite Hg, Hw.
      pose proof (aenter_lifespan md w) as H. rewrite Hfail in H. exact H.
    + split; reflexivity.
  - intros Hs. rewrite Hs in Hph. exact Hph.
  - intros m environ a. unfold main_uvicorn_args.
    destruct (py_int m _); cbn [bind]; [|discriminate].
    intros [= <-]. reflexivity.
Qed.

Lemma startup_failure_aborts_witness :
  phase sample_failed <> Serving /\
  List.filter is_accept (trace sample_failed) = [] /\
  exit_status sample_failed = Running.
Proof.
  destruct (startup_failure_aborts sample_framework (Ok sample_users)
              (Ok ["users"]) sample_app ["users"] sample_args
              offline_world OperationalError sample_failed
              eq_refl eq_refl sample_run_failed)
    as (H1 & H2 & _ & _ & H3 & _).
  split; [exact H1|]. split; [exact H2|].
  exact (proj2 (H3 eq_refl)).
Defined.

(** C7 as stated fails: started by [main.py]'s own entry point, a process
    whose hook raises never exits, with whatever status: the worker has
    failed and the supervisor keeps running. *)
Lemma startup_failure_without_exit :
  main_uvicorn_args 4300 ∅ = Ok sample_args /\
  create_all ["users"] (db offline_world) = Raise OperationalError /\
  rtc (step sample_framework ["users"] sample_app sample_args)
    (boot sample_app offline_world) sample_failed /\
  phase sample_failed = Failed /\
  forall s,
    rtc (step sample_framework ["users"] sample_app sample_args)
      (boot sample_app offline_world) s ->
    exit_status s = Running.
Proof.
  split; [reflexivity|]. split; [reflexivity|].
  split; [exact sample_run_failed|]. split; [reflexivity|].
  intros s Hreach.
  destruct (failing_reachable sample_framework ["users"] sample_app
              sample_args eq_refl offline_world OperationalError s
              eq_refl Hreach) as (_ & _ & Hph).
  destruct (phase s); try contradiction; apply Hph.
Qed.

(** * Further properties of the bootstrap *)

(** ** More on the port read from [PORT] *)

Section PortEdges.

Lemma skip_spaces_all p s :
  all_chars p s = true -> all_chars p (skip_spaces s) = true.
Proof.
  induction s as [|c s IH]; cbn [skip_spaces]; [trivial|].
  destruct (is_space c); [|trivial].
  cbn [all_chars]. intros H. apply andb_prop in H as [_ H]. auto.
Qed.

Lemma take_sign_all p s :
  all_chars p s = true -> all_chars p (snd (take_sign s)) = true.
Proof.
  destruct s as [|c s]; cbn [take_sign]; [trivial|].
  destruct (code c =? 43); [|destruct (code c =? 45)]; cbn [snd]; trivial;
    cbn [all_chars]; intros H; apply andb_prop in H as [_ H]; exact H.
Qed.

Lemma scan_digits_no_digit s : forall p a k v n rest,
  no_digit s = true ->
  scan_digits s p a k = Some (v, n, rest) -> n = k.
Proof.
  unfold no_digit.
  induction s as [|c s IH]; intros p a k v n rest Hs; cbn [scan_digits].
  - destruct p; [discriminate|]. intros [= _ <- _]. reflexivity.
  - cbn [all_chars] in Hs. apply andb_prop in Hs as [Hc Hs].
    unfold is_digit in Hc. destruct (digit_val c); [discriminate|].
    destruct (is_underscore c).
    + destruct p; [discriminate|]. intros H. eapply IH; eauto.
    + destruct p; [discriminate|]. intros [= _ <- _]. reflexivity.
Qed.

Lemma int_of_str_no_digit m s :
  no_digit s = true -> int_of_str m s = Raise ValueError.
Proof.
  intros Hs. unfold int_of_str.
  pose proof (take_sign_all _ _ (skip_spaces_all _ _ Hs)) as Hb.
  destruct (take_sign (skip_spaces s)) as [neg body]. cbn [snd] in Hb.
  destruct (starts_with_underscore body); [reflexivity|].
  destruct (scan_digits body false 0 0) as [[[v n] rest]|] eqn:E;
    [|reflexivity].
  rewrite (scan_digits_no_digit _ _ _ _ _ _ _ Hb E). reflexivity.
Qed.

Lemma render_digits_app fuel : forall n acc t,
  render_digits fuel n acc ++ t = render_digits fuel n (acc ++ t).
Proof.
  induction fuel as [|fuel IH]; intros n acc t; cbn [render_digits];
    [reflexivity|].
  destruct (n <? 10); [reflexivity|]. rewrite IH. reflexivity.
Qed.

Lemma skip_spaces_pad pad s :
  all_chars is_space pad = true -> skip_spaces (pad ++ s) = skip_spaces s.
Proof.
  induction pad as [|c pad IH]; [reflexivity|].
  cbn [all_chars]. intros H. apply andb_prop in H as [Hc H].
  simpl. rewrite Hc. auto.
Qed.

Lemma skip_spaces_all_space pad :
  all_chars is_space pad = true -> skip_spaces pad = EmptyString.
Proof.
  induction pad as [|c pad IH]; [reflexivity|].
  cbn [all_chars skip_spaces]. intros H. apply andb_prop in H as [-> H]. auto.
Qed.

Lemma space_not_digit c : is_space c = true -> digit_val c = None.
Proof.
  intros H. destruct (digit_val c) as [d|] eqn:E; [|reflexivity].
  rewrite (digit_not_space _ _ E) in H. discriminate.
Qed.

Lemma space_not_underscore c : is_space c = true -> is_underscore c = false.
Proof.
  unfold is_space, is_underscore. intros H.
  apply Z.eqb_neq. intros Hc. rewrite Hc in H. discriminate.
Qed.

(** The digit scan stops at the padding. *)
Lemma scan_digits_pad pad a k :
  all_chars is_space pad = true ->
  scan_digits pad false a k = Some (a, k, pad).
Proof.
  destruct pad as [|c pad]; [reflexivity|].
  cbn [all_chars scan_digits]. intros H. apply andb_prop in H as [Hc _].
  rewrite (space_not_digit _ Hc), (space_not_underscore _ Hc). reflexivity.
Qed.

Lemma str_of_nonneg_padded m n pad :
  0 <= n < 2 ^ 639 ->
  all_chars is_space pad = true ->
  exists c tl d,
    str_of_nonneg n ++ pad = String c tl /\ digit_val c <> None /\
    scan_digits (str_of_nonneg n ++ pad) false 0 0 = Some (n, S d, pad) /\
    exceeds_digit_limit m (S d) = false.
Proof.
  intros Hn Hpad. unfold str_of_nonneg. rewrite render_digits_app.
  change (EmptyString ++ pad) with pad.
  set (fuel := Z.to_nat (Z.log2 n)).
  assert (Hl : 0 <= Z.log2 n) by apply Z.log2_nonneg.
  assert (Hfuel : 0 <= n < 2 ^ Z.of_nat (S fuel)).
  { split; [lia|]. unfold fuel. rewrite Nat2Z.inj_succ, Z2Nat.id by lia.
    destruct (Z.eq_dec n 0) as [->|Hne]; [reflexivity|].
    apply Z.log2_spec. lia. }
  assert (Hle : (S fuel <= 640)%nat).
  { unfold fuel.
    destruct (Z.eq_dec n 0) as [->|Hne]; [simpl; lia|].
    assert (Z.log2 n < 639) by (apply Z.log2_lt_pow2; lia). lia. }
  destruct (scan_render fuel n pad Hfuel) as (d & c & tl & Hd & Hr & Hc & Hs).
  destruct d as [|d]; [lia|].
  exists c, tl, d. split; [exact Hr|]. split; [exact Hc|]. split.
  - rewrite Hs, (scan_digits_pad pad _ _ Hpad).
    replace (0 * 10 ^ Z.of_nat (S d) + n) with n by lia. reflexivity.
  - unfold exceeds_digit_limit.
    replace (640 <? S d)%nat with false; [reflexivity|].
    symmetry. apply Nat.ltb_ge. lia.
Qed.

Lemma int_of_str_padded m z pad1 pad2 :
  Z.abs z < 2 ^ 639 ->
  all_chars is_space pad1 = true ->
  all_chars is_space pad2 = true ->
  int_of_str m (pad1 ++ py_str z ++ pad2) = Ok z.
Proof.
  intros Hz H1 H2. unfold int_of_str. rewrite (skip_spaces_pad _ _ H1).
  unfold py_str. destruct (z <? 0) eqn:Hneg.
  - apply Z.ltb_lt in Hneg.
    destruct (str_of_nonneg_padded m (- z) pad2 ltac:(lia) H2)
      as (c & tl & d & Hr & Hc & Hs & Hlim).
    change (String "-" (str_of_nonneg (- z)) ++ pad2)
      with (String "-" (str_of_nonneg (- z) ++ pad2)).
    cbn [skip_spaces].
    replace (is_space "-") with false by reflexivity.
    cbn [take_sign]. replace (code "-" =? 43) with false by reflexivity.
    replace (code "-" =? 45) with true by reflexivity.
    rewrite Hs, Hr. cbn [starts_with_underscore].
    destruct (digit_val c) as [dv|] eqn:Hdv; [|congruence].
    rewrite (digit_not_underscore _ _ Hdv). cbn [Nat.eqb].
    rewrite Hlim, (skip_spaces_all_space _ H2). f_equal. lia.
  - destruct (str_of_nonneg_padded m z pad2 ltac:(lia) H2)
      as (c & tl & d & Hr & Hc & Hs & Hlim).
    rewrite Hr in *.
    destruct (digit_val c) as [dv|] eqn:Hdv; [|congruence].
    cbn [skip_spaces]. rewrite (digit_not_space _ _ Hdv).
    cbn [take_sign]. destruct (digit_not_sign _ _ Hdv) as [-> ->].
    cbn [starts_with_underscore].
    rewrite (digit_not_underscore _ _ Hdv), Hs. cbn [Nat.eqb].
    rewrite Hlim, (skip_spaces_all_space _ H2). reflexivity.
Qed.

End PortEdges.

(** X1: a [PORT] that is set but holds no digit (the empty string, white
    space, a lone sign) does not fall back to the default: evaluating the
    port raises [ValueError]. *)
Theorem port_without_digit_raises (max_str_digits : nat)
    (environ : gmap string string) (s : string) :
  environ !! "PORT" = Some s ->
  no_digit s = true ->
  listening_port max_str_digits environ = Raise ValueError /\
  main_uvicorn_args max_str_digits environ = Raise ValueError.
Proof.
  intros He Hs. unfold listening_port, main_uvicorn_args, os_getenv.
  rewrite He. cbn [py_int]. rewrite (int_of_str_no_digit _ _ Hs).
  split; reflexivity.
Qed.

Lemma port_without_digit_raises_witness :
  listening_port 4300 {[ "PORT" := "" ]} = Raise ValueError /\
  listening_port 4300 {[ "PORT" := " +" ]} = Raise ValueError.
Proof.
  split.
  - apply (port_without_digit_raises 4300 {[ "PORT" := "" ]} "");
      reflexivity.
  - apply (port_without_digit_raises 4300 {[ "PORT" := " +" ]} " +");
      reflexivity.
Defined.

(** X2: white space around the number is ignored: with [PORT] set to the
    decimal writing of an integer between two runs of white space (a
    trailing line feed, say), the port handed to [uvicorn.run] is that
    integer. *)
Theorem port_padded_with_spaces (max_str_digits : nat)
    (environ : gmap string string) (z : Z) (pad1 pad2 : string) :
  Z.abs z < 2 ^ 639 ->
  all_chars is_space pad1 = true ->
  all_chars is_space pad2 = true ->
  environ !! "PORT" = Some (pad1 ++ py_str z ++ pad2) ->
  listening_port max_str_digits environ = Ok z.
Proof.
  intros Hz H1 H2 He. unfold listening_port, main_uvicorn_args, os_getenv.
  rewrite He. cbn [py_int]. rewrite (int_of_str_padded _ _ _ _ Hz H1 H2).
  reflexivity.
Qed.

Lemma port_padded_with_spaces_witness :
  listening_port 4300 {[ "PORT" := " 8080" ++ LF ]} = Ok 8080.
Proof.
  apply (port_padded_with_spaces 4300 {[ "PORT" := " 8080" ++ LF ]}
           8080 " " LF); reflexivity.
Defined.

(** ** More on routing *)

Section RoutingEdges.

Variable fw : Framework.

Lemma compile_segs_no_brace p : forall n,
  no_brace p = true -> (String.length p <= n)%nat ->
  compile_segs n p = lits p.
Proof.
  unfold no_brace.
  induction p as [|c p IH]; intros n Hp Hn.
  - destruct n; reflexivity.
  - cbn [all_chars] in Hp. apply andb_prop in Hp as [Hc Hp].
    apply negb_true_iff in Hc. cbn [String.length] in Hn.
    destruct n as [|n]; [lia|]. cbn [compile_segs lits].
    rewrite Hc, IH by (trivial; lia). reflexivity.
Qed.

Lemma compile_path_no_brace p :
  String.prefix "/" p = true ->
  no_brace p = true -> compile_path p = lits p.
Proof.
  intros Hs Hp. unfold compile_path. rewrite Hs.
  apply compile_segs_no_brace; [exact Hp | lia].
Qed.

Lemma at_end_iff s : at_end s = true <-> s = EmptyString \/ s = LF.
Proof.
  unfold at_end, LF. split.
  - destruct s as [|c [|c' s]]; [left; reflexivity | | discriminate].
    intros H. right. f_equal. apply Z.eqb_eq in H. unfold code in H.
    rewrite <- (ascii_nat_embedding c). f_equal. lia.
  - intros [-> | ->]; reflexivity.
Qed.

Lemma match_lits_iff p : forall s,
  match_segs (accepts fw) (lits p) s = true
  <-> exists rest, s = p ++ rest /\ at_end rest = true.
Proof.
  induction p as [|c p IH]; intros s; cbn [lits match_segs].
  - split; [intros H; exists s; split; [reflexivity | exact H]|].
    intros (rest & -> & H). exact H.
  - destruct s as [|c' s].
    + split; [discriminate | intros (rest & H & _); discriminate H].
    + rewrite andb_true_iff, IH. split.
      * intros [Hc (rest & -> & H)]. apply Ascii.eqb_eq in Hc as <-.
        exists rest. split; [reflexivity | exact H].
      * intros (rest & Heq & H). simpl in Heq. injection Heq as <- ->.
        split; [apply Ascii.eqb_refl|]. exists rest. split; [reflexivity | exact H].
Qed.

Lemma append_empty_r (s : string) : s ++ EmptyString = s.
Proof.
  induction s as [|c s IH]; [reflexivity|].
  change (String c (s ++ EmptyString) = String c s). f_equal. exact IH.
Qed.

Lemma find_route_found l : forall partial rq r,
  find_route fw l partial rq = Some r ->
  partial = Some r \/ (r ∈ l /\ route_matches fw r rq <> NoMatch).
Proof.
  induction l as [|r0 l IH]; intros partial rq r; cbn [find_route].
  - intros ->. left. reflexivity.
  - destruct (route_matches fw r0 rq) eqn:E.
    + intros H. destruct (IH _ _ _ H) as [Hp | [Hin Hm]]; [left; exact Hp|].
      right. split; [set_solver | exact Hm].
    + intros H. destruct (IH _ _ _ H) as [Hp | [Hin Hm]].
      * destruct partial as [r1|]; [left; exact Hp|].
        injection Hp as <-. right. split; [set_solver | congruence].
      * right. split; [set_solver | exact Hm].
    + intros [= <-]. right. split; [set_solver | congruence].
Qed.

Lemma fixed_routes_outside_mount r rq rest :
  req_path rq = "/api/v1" ++ rest ->
  r ∈ (docs_routes
       ++ [ {| path := "/"; methods := ["GET"]; endpoint := EpRoot |};
            {| path := "/health"; methods := ["GET"];
               endpoint := EpHealthCheck |} ])%list ->
  route_matches fw r rq = NoMatch.
Proof.
  intros Hp Hr. unfold docs_routes in Hr. cbn [app] in Hr.
  unfold route_matches. rewrite Hp.
  repeat (apply elem_of_cons in Hr as [-> | Hr]); try reflexivity.
  inversion Hr.
Qed.

End RoutingEdges.

(** X7: the mount splits the paths. Whatever the users router holds, the
    route the router picks for a request calls an endpoint of
    [users.router] exactly when the request path starts with [/api/v1]:
    no users route answers outside the prefix, and neither the status
    routes nor the documentation routes answer inside it. *)
Theorem dispatch_respects_mount (fw : Framework)
    (iu : result (list UserRoute)) (idb : result (list string))
    (app : FastAPI) (md : list string) (rq : Request) (r : Route) :
  main_module iu idb = Ok (app, md) ->
  find_route fw (routes app) None rq = Some r ->
  ((exists h, endpoint r = EpUsers h)
   <-> exists rest, req_path rq = "/api/v1" ++ rest).
Proof.
  intros Hmain Hfind.
  apply main_module_inv in Hmain as (us & _ & _ & _ & _ & Hroutes).
  rewrite Hroutes in Hfind.
  apply find_route_found in Hfind as [Hp | [Hin Hm]]; [discriminate|].
  apply elem_of_app in Hin as [Hin | Hin];
    [|apply elem_of_app in Hin as [Hin | Hin]].
  - split.
    + intros [h Hep]. unfold docs_routes in Hin.
      repeat (apply elem_of_cons in Hin as [-> | Hin]);
        try discriminate Hep. inversion Hin.
    + intros [rest Hp]. exfalso. apply Hm.
      eapply fixed_routes_outside_mount; [exact Hp|].
      apply elem_of_app. left. exact Hin.
  - apply list_elem_of_fmap in Hin as (u & -> & _). split.
    + intros _. eapply mounted_match. exact Hm.
    + intros _. eexists. reflexivity.
  - split.
    + intros [h Hep].
      repeat (apply elem_of_cons in Hin as [-> | Hin]);
        try discriminate Hep. inversion Hin.
    + intros [rest Hp]. exfalso. apply Hm.
      eapply fixed_routes_outside_mount; [exact Hp|].
      apply elem_of_app. right. exact Hin.
Qed.

Lemma dispatch_respects_mount_witness :
  (exists h,
     endpoint {| path := "/api/v1/users/{user_id}"; methods := ["GET"];
                 endpoint := EpUsers
                   (fun _ w => (w, RaisesHTTP 404 "User not found" [])) |}
     = EpUsers h)
  <-> exists rest, req_path (get "/api/v1/users/7" []) = "/api/v1" ++ rest.
Proof.
  apply (dispatch_respects_mount sample_framework (Ok sample_users)
           (Ok ["users"]) sample_app ["users"] (get "/api/v1/users/7" []));
    reflexivity.
Defined.

(** X8: a route whose path starts with a slash and has no parameter, such
    as the two paths that [main.py] gives to [app.get], matches a request
    path exactly when the request path is the route path, or the route
    path followed by one line feed (the [$] of the compiled regex). *)
Theorem literal_route_matches (fw : Framework) (p s : string) :
  String.prefix "/" p = true ->
  no_brace p = true ->
  (match_segs (accepts fw) (compile_path p) s = true
   <-> s = p \/ s = p ++ LF).
Proof.
  intros Hs Hp. rewrite (compile_path_no_brace p Hs Hp), match_lits_iff.
  split.
  - intros (rest & -> & H). apply at_end_iff in H as [-> | ->].
    + left. apply append_empty_r.
    + right. reflexivity.
  - intros [-> | ->].
    + exists EmptyString. split; [symmetry; apply append_empty_r | reflexivity].
    + exists LF. split; reflexivity.
Qed.

Lemma literal_route_matches_witness :
  match_segs (accepts sample_framework) (compile_path "/health")
    ("/health" ++ LF) = true.
Proof.
  apply (proj2 (literal_route_matches sample_framework "/health"
                  ("/health" ++ LF) eq_refl eq_refl)).
  right. reflexivity.
Defined.

(** ** More on the CORS middleware and the status routes *)

Section CorsEdges.

Variable fw : Framework.

Lemma other_headers_replace k v l : forall seen,
  cors_written k = true ->
  other_headers (replace_header k v seen l) = other_headers l.
Proof.
  unfold other_headers.
  induction l as [|[k' v'] l IH]; intros seen Hk; [reflexivity|].
  cbn [replace_header]. destruct (String.eqb k' k) eqn:E.
  - apply String.eqb_eq in E as ->.
    destruct seen; cbn [List.filter fst]; rewrite Hk; cbn [negb];
      apply IH, Hk.
  - cbn [List.filter fst]. rewrite IH by exact Hk. reflexivity.
Qed.

Lemma other_headers_set name v hs :
  cors_written (lower name) = true ->
  other_headers (set_header name v hs) = other_headers hs.
Proof.
  intros Hk. unfold set_header. destruct (has_header (lower name) hs).
  - apply other_headers_replace, Hk.
  - unfold other_headers. rewrite List.filter_app.
    cbn [List.filter fst]. rewrite Hk. cbn [negb]. apply app_nil_r.
Qed.

Lemma other_headers_vary hs :
  other_headers (add_vary_header "Origin" hs) = other_headers hs.
Proof.
  unfold add_vary_header.
  destruct (get_header "vary" hs); apply other_headers_set; reflexivity.
Qed.

(** [send] of the configured middleware leaves every header it does not
    write where it found it. *)
Lemma other_headers_cors_send request_headers r :
  other_headers
    (resp_headers
       (cors_send (release fw) (cors_init (release fw) main_cors_args)
          request_headers r))
  = other_headers (resp_headers r).
Proof.
  unfold cors_send. cbn [resp_headers].
  destruct (main_cors_attributes (release fw)) as (-> & _ & -> & _).
  cbn [update_headers fold_left fst snd negb andb].
  destruct (has_header "cookie" request_headers || echoes_origin (release fw)).
  - unfold allow_explicit_origin. rewrite other_headers_vary.
    rewrite !other_headers_set by reflexivity. reflexivity.
  - rewrite !other_headers_set by reflexivity. reflexivity.
Qed.

Lemma get_header_other k hs :
  cors_written k = false ->
  get_header k (other_headers hs) = get_header k hs.
Proof.
  intros Hk. unfold other_headers.
  induction hs as [|[k' v'] hs IH]; [reflexivity|].
  cbn [List.filter fst get_header].
  destruct (String.eqb k' k) eqn:E.
  - apply String.eqb_eq in E as ->. rewrite Hk. cbn [negb get_header].
    rewrite String.eqb_refl. reflexivity.
  - destruct (negb (cors_written k')); cbn [get_header]; rewrite ?E; exact IH.
Qed.

Lemma asgi_headers_only app rq w w' r0 :
  user_middleware app = [MwCORS main_cors_args] ->
  is_preflight rq = false ->
  ExceptionMiddleware (router_app fw (routes app)) rq w = (w', Ok r0) ->
  exists r,
    asgi_app fw app rq w = (w', r) /\
    status r = status r0 /\ body r = body r0 /\
    other_headers (resp_headers r) = other_headers (resp_headers r0) /\
    forall k, cors_written k = false ->
      get_header k (resp_headers r) = get_header k (resp_headers r0).
Proof.
  intros Hmw Hpre Hin.
  assert (H : exists r,
    asgi_app fw app rq w = (w', r) /\
    status r = status r0 /\ body r = body r0 /\
    other_headers (resp_headers r) = other_headers (resp_headers r0)).
  { unfold asgi_app. rewrite Hmw. cbn [fold_right apply_middleware].
    unfold ServerErrorMiddleware, CORSMiddleware. rewrite Hpre, Hin.
    destruct (get_header "origin" (req_headers rq)).
    - eexists. split; [reflexivity|]. split; [reflexivity|].
      split; [reflexivity|]. apply other_headers_cors_send.
    - destruct (vary_without_origin (release fw)).
      + eexists. split; [reflexivity|]. split; [reflexivity|].
        split; [reflexivity|]. apply other_headers_vary.
      + exists r0. repeat split. }
  destruct H as (r & Hr & Hs & Hb & Ho).
  exists r. split; [exact Hr|]. split; [exact Hs|]. split; [exact Hb|].
  split; [exact Ho|]. intros k Hk.
  rewrite <- (get_header_other k (resp_headers r) Hk), Ho.
  apply get_header_other, Hk.
Qed.

Lemma router_method_not_allowed us rq w :
  req_path rq = "/" \/ req_path rq = "/health" ->
  req_method rq <> "GET" ->
  router_app fw
    (docs_routes ++ map (mounted "/api/v1") us
     ++ [ {| path := "/"; methods := ["GET"]; endpoint := EpRoot |};
          {| path := "/health"; methods := ["GET"];
             endpoint := EpHealthCheck |} ])%list rq w
  = (w, RaisesHTTP 405 "Method Not Allowed" [("Allow", "GET")]).
Proof.
  intros Hp Hm. unfold router_app.
  rewrite find_route_skip
    by (intros r Hr; apply docs_routes_no_match; auto).
  rewrite find_route_skip_mounted
    by (destruct Hp as [-> | ->]; intros rest H; simpl in H; discriminate).
  assert (Hmem : mem (req_method rq) ["GET"] = false).
  { unfold mem. cbn [existsb]. rewrite orb_false_r.
    apply String.eqb_neq. exact Hm. }
  cbn [find_route]. unfold route_matches. cbn [path methods].
  rewrite Hmem.
  destruct Hp as [Hp | Hp]; rewrite Hp.
  - replace (match_segs (accepts fw) (compile_path "/") "/") with true
      by reflexivity.
    replace (match_segs (accepts fw) (compile_path "/health") "/")
      with false by reflexivity.
    cbv beta iota. unfold route_handle. cbn [methods]. rewrite Hmem.
    reflexivity.
  - replace (match_segs (accepts fw) (compile_path "/") "/health")
      with false by reflexivity.
    replace (match_segs (accepts fw) (compile_path "/health") "/health")
      with true by reflexivity.
    cbv beta iota. unfold route_handle. cbn [methods]. rewrite Hmem.
    reflexivity.
Qed.

End CorsEdges.

(** X4: the status routes answer GET only. Any other method on [/] or
    [/health] (HEAD included; a CORS preflight apart, which the middleware
    answers) gets 405 with the body [{"detail": "Method Not Allowed"}] and
    the header [Allow: GET]; the handler is not run and the world is left
    as it was. *)
Theorem status_routes_get_only (fw : Framework)
    (iu : result (list UserRoute)) (idb : result (list string))
    (app : FastAPI) (md : list string) (rq : Request) (w : World) :
  main_module iu idb = Ok (app, md) ->
  req_path rq = "/" \/ req_path rq = "/health" ->
  req_method rq <> "GET" ->
  is_preflight rq = false ->
  exists r,
    asgi_app fw app rq w = (w, r) /\
    status r = 405 /\
    body r = JsonBody (JObject [("detail", JString "Method Not Allowed")]) /\
    get_header "allow" (resp_headers r) = Some "GET".
Proof.
  intros Hmain Hp Hm Hpre.
  apply main_module_inv in Hmain as (us & _ & _ & _ & Hmw & Hroutes).
  destruct (asgi_headers_only fw app rq w w
              (http_exception_handler 405 "Method Not Allowed"
                 [("Allow", "GET")]) Hmw Hpre)
    as (r & Hr & Hs & Hb & _ & Hh).
  - unfold ExceptionMiddleware. rewrite Hroutes.
    rewrite (router_method_not_allowed fw us rq w Hp Hm). reflexivity.
  - exists r. split; [exact Hr|]. split; [exact Hs|]. split; [exact Hb|].
    rewrite (Hh "allow") by reflexivity. reflexivity.
Qed.

Lemma status_routes_get_only_witness :
  exists r,
    asgi_app sample_framework sample_app
      {| req_method := "HEAD"; req_path := "/health"; req_query := "";
         req_headers := [("origin", "https://example.org")] |}
      offline_world = (offline_world, r) /\
    status r = 405 /\
    body r = JsonBody (JObject [("detail", JString "Method Not Allowed")]) /\
    get_header "allow" (resp_headers r) = Some "GET".
Proof.
  apply (status_routes_get_only sample_framework (Ok sample_users)
           (Ok ["users"]) sample_app ["users"]
           {| req_method := "HEAD"; req_path := "/health"; req_query := "";
              req_headers := [("origin", "https://example.org")] |}
           offline_world).
  - reflexivity.
  - right. reflexivity.
  - discriminate.
  - reflexivity.
Defined.

(** X5: a CORS preflight (OPTIONS with [Origin] and
    [Access-Control-Request-Method]) never reaches a route: the middleware
    answers it, for any path, any origin and any requested headers, and
    the world is left as it was. The answer is 200 [OK] when the requested
    method is in the library's list of all methods (the list that the
    wildcard of [allow_methods] stands for), and 400
    [Disallowed CORS method] otherwise. Requests that ask for private
    network access, on which releases differ, are left aside. *)
Theorem preflight_outcome (fw : Framework)
    (iu : result (list UserRoute)) (idb : result (list string))
    (app : FastAPI) (md : list string) (rq : Request) (w : World)
    (o : string) :
  main_module iu idb = Ok (app, md) ->
  get_header "origin" (req_headers rq) = Some o ->
  is_preflight rq = true ->
  has_header "access-control-request-private-network" (req_headers rq)
  = false ->
  exists r,
    asgi_app fw app rq w = (w, r) /\
    if mem (default ""
              (get_header "access-control-request-method" (req_headers rq)))
         (ALL_METHODS (release fw))
    then status r = 200 /\ body r = TextBody "OK"
    else status r = 400 /\ body r = TextBody "Disallowed CORS method".
Proof.
  intros Hmain Ho Hpre _.
  apply main_module_inv in Hmain as (us & _ & _ & _ & Hmw & _).
  unfold asgi_app. rewrite Hmw. cbn [fold_right apply_middleware].
  unfold ServerErrorMiddleware, CORSMiddleware. rewrite Ho, Hpre.
  eexists. split; [reflexivity|].
  unfold preflight_response.
  destruct (main_cors_attributes (release fw))
    as (_ & -> & Ha & -> & -> & ->).
  unfold is_allowed_origin. rewrite Ha.
  cbn [andb orb Datatypes.app].
  destruct (get_header "access-control-request-headers" (req_headers rq));
    destruct (mem _ (ALL_METHODS (release fw)));
    cbn [Datatypes.app]; split; reflexivity.
Qed.

Lemma preflight_outcome_witness :
  (exists r,
     asgi_app sample_framework sample_app
       {| req_method := "OPTIONS"; req_path := "/no/such/path";
          req_query := "";
          req_headers := [("origin", "https://evil.example");
                          ("access-control-request-method", "TRACE");
                          ("access-control-request-headers", "x-any")] |}
       sample_world = (sample_world, r) /\
     status r = 400 /\ body r = TextBody "Disallowed CORS method") /\
  (exists r,
     asgi_app sample_framework_query sample_app
       {| req_method := "OPTIONS"; req_path := "/health";
          req_query := "";
          req_headers := [("origin", "https://example.org");
                          ("access-control-request-method", "QUERY")] |}
       sample_world = (sample_world, r) /\
     status r = 200 /\ body r = TextBody "OK").
Proof.
  split.
  - apply (preflight_outcome sample_framework (Ok sample_users)
             (Ok ["users"]) sample_app ["users"]
             {| req_method := "OPTIONS"; req_path := "/no/such/path";
                req_query := "";
                req_headers :=
                  [("origin", "https://evil.example");
                   ("access-control-request-method", "TRACE");
                   ("access-control-request-headers", "x-any")] |}
             sample_world "https://evil.example"); reflexivity.
  - apply (preflight_outcome sample_framework_query (Ok sample_users)
             (Ok ["users"]) sample_app ["users"]
             {| req_method := "OPTIONS"; req_path := "/health";
                req_query := "";
                req_headers :=
                  [("origin", "https://example.org");
                   ("access-control-request-method", "QUERY")] |}
             sample_world "https://example.org"); reflexivity.
Defined.

(** X6: on a request that is not a preflight, the CORS middleware changes
    headers only, and only its own: when the routes inside answer, the
    response of the application has the same status and the same body,
    and the headers other than [Access-Control-Allow-Origin],
    [Access-Control-Allow-Credentials] and [Vary] are the ones the route
    set, all of them, in the same order, repeated names included. *)
Theorem cors_changes_own_headers_only (fw : Framework)
    (iu : result (list UserRoute)) (idb : result (list string))
    (app : FastAPI) (md : list string) (rq : Request) (w w' : World)
    (r0 : Response) :
  main_module iu idb = Ok (app, md) ->
  is_preflight rq = false ->
  ExceptionMiddleware (router_app fw (routes app)) rq w = (w', Ok r0) ->
  exists r,
    asgi_app fw app rq w = (w', r) /\
    status r = status r0 /\ body r = body r0 /\
    other_headers (resp_headers r) = other_headers (resp_headers r0).
Proof.
  intros Hmain Hpre Hin.
  apply main_module_inv in Hmain as (us & _ & _ & _ & Hmw & _).
  destruct (asgi_headers_only fw app rq w w' r0 Hmw Hpre Hin)
    as (r & Hr & Hs & Hb & Ho & _).
  exists r. repeat split; assumption.
Qed.

Lemma cors_changes_own_headers_only_witness :
  exists r,
    asgi_app sample_framework_query sample_app
      {| req_method := "POST"; req_path := "/api/v1/users/";
         req_query := "";
         req_headers := [("origin", "https://example.org");
                         ("cookie", "session=1")] |}
      sample_world
    = ({| db := db sample_world;
          heap := <[ "last" := "created" ]> (heap sample_world) |}, r) /\
    status r = 201 /\
    other_headers (resp_headers r) = [("content-type", "application/json")].
Proof.
  destruct (cors_changes_own_headers_only sample_framework_query
              (Ok sample_users) (Ok ["users"]) sample_app ["users"]
              {| req_method := "POST"; req_path := "/api/v1/users/";
                 req_query := "";
                 req_headers := [("origin", "https://example.org");
                                 ("cookie", "session=1")] |}
              sample_world
              {| db := db sample_world;
                 heap := <[ "last" := "created" ]> (heap sample_world) |}
              (JSONResponse (JObject [("id", JString "1")]) 201 [])
              eq_refl eq_refl eq_refl)
    as (r & Hr & Hs & _ & Ho).
  exists r. split; [exact Hr|]. split; [exact Hs | exact Ho].
Defined.
